(** * The Game Blaster / Creative Music System device (gameblaster.cpp)

    A shallow embedding of [GameBlaster] from [src/hardware/gameblaster.cpp]:
    the device object, the I/O port handlers it installs, the catch-up
    renderer and the mixer callback.

    Conventions of the embedding.
    - C++ integers are [Z]; conversions to a narrower type are written out.
    - [assert] is fatal: an operation returns [Abort (AssertionFailed e)]
      where [e] is the asserted expression.
    - Emulated time ([double] milliseconds in the source) is an exact
      rational [Q]; rounding of binary64 arithmetic is not modelled.
    - The SAA-1099 chip and the sinc resampler are external units, taken as
      interfaces (type classes).  *)

From Stdlib Require Import ZArith QArith Qround Lia Lqa.
From stdpp Require Import base option list gmap strings.

Local Open Scope string_scope.
Local Open Scope list_scope.
Local Open Scope Z_scope.

(** ** Fatal conditions and the result monad *)

Inductive Failure : Type :=
  | AssertionFailed (expr : string)
  | NullDereference (what : string)
  | OutOfFuel.

Inductive result (A : Type) : Type :=
  | Ok (a : A)
  | Abort (f : Failure).
Arguments Ok {A} a.
Arguments Abort {A} f.

(** The monad structure, so that stdpp's [x ← r; k] notation applies. *)
Global Instance result_ret : MRet result := fun A a => Ok a.
Global Instance result_bind : MBind result := fun A B k r =>
  match r with
  | Ok a => k a
  | Abort f => Abort f
  end.

Definition assert (b : bool) (expr : string) : result unit :=
  if b then Ok tt else Abort (AssertionFailed expr).

(** [*p] on a [std::unique_ptr]: fatal when it holds nothing. *)
Definition deref {A} (p : option A) (what : string) : result A :=
  match p with
  | Some a => Ok a
  | None => Abort (NullDereference what)
  end.

(** ** Machine integers *)

Definition in_uint8 (v : Z) : bool := (0 <=? v) && (v <=? 255).
Definition in_uint16 (v : Z) : bool := (0 <=? v) && (v <=? 65535).

(** [check_cast<T>(v)] asserts that [v] fits [T] and then converts. *)
Definition check_cast_uint8 (v : Z) : result Z :=
  _ ← assert (in_uint8 v) "check_cast<uint8_t>"; Ok (v mod 256).
Definition check_cast_io_port (v : Z) : result Z :=
  _ ← assert (in_uint16 v) "check_cast<io_port_t>"; Ok (v mod 65536).

(** Implicit conversion of an [int] expression to [io_port_t] (uint16_t). *)
Definition to_io_port (v : Z) : Z := v mod 65536.

(** What an [int16_t] slot holds after a store. *)
Definition to_int16 (v : Z) : Z := (v + 32768) mod 65536 - 32768.

(** Addition in [int] (32-bit two's complement). *)
Definition int_add (a b : Z) : Z := (a + b + 2147483648) mod 4294967296 - 2147483648.

(** ** External units: the chip and the resampler *)

(** [saa1099_device]: construction with [device_start], the two register
    writes, and [sound_stream_update] for one sample, which advances the chip
    and yields the left and right outputs. *)
Class Saa1099 (D : Type) : Type := {
  device_start : Z -> Z -> D;
  data_w : D -> Z -> D;
  control_w : D -> Z -> D;
  sound_stream_update : D -> D * (Z * Z)
}.

(** [reSIDfp::TwoPassSincResampler]: [create], [input] (true when an output
    sample is ready) and [output]. *)
Class SincResampler (R : Type) : Type := {
  create : Q -> Q -> Q -> R;
  input : R -> Z -> bool * R;
  output : R -> Z
}.

(** ** The audio sink *)

Inductive FilterState : Type := FilterOff | FilterOn.

Inductive ChannelFeature : Type :=
  | Sleep | Stereo | ReverbSend | ChorusSend | Synthesizer.

(** A stereo frame.  The source stores [float]s converted from the
    resampler's [int] outputs; the integer values are kept here. *)
Record AudioFrame : Type := { left : Z; right : Z }.

Definition zero_frame : AudioFrame := {| left := 0; right := 0 |}.

(** Modelled from the spec: the mixer channel (audio sink) is declared
    outside the source files.  It is asleep or awake, carries the low-pass
    filter configuration, and collects the frames pushed to it, oldest
    first. *)
Record MixerChannel : Type := {
  ch_name : string;
  ch_features : list ChannelFeature;
  ch_enabled : bool;
  ch_sample_rate : Z;
  ch_lowpass_order : Z;
  ch_lowpass_cutoff_hz : Z;
  ch_lowpass_state : FilterState;
  ch_frames : list AudioFrame
}.

(** [WakeUp]: true when the channel was asleep; it is awake afterwards. *)
Definition WakeUp (c : MixerChannel) : bool * MixerChannel :=
  (negb (ch_enabled c),
   {| ch_name := ch_name c; ch_features := ch_features c;
      ch_enabled := true; ch_sample_rate := ch_sample_rate c;
      ch_lowpass_order := ch_lowpass_order c;
      ch_lowpass_cutoff_hz := ch_lowpass_cutoff_hz c;
      ch_lowpass_state := ch_lowpass_state c;
      ch_frames := ch_frames c |}).

Global Arguments WakeUp : simpl never.

Definition Enable (b : bool) (c : MixerChannel) : MixerChannel :=
  {| ch_name := ch_name c; ch_features := ch_features c;
     ch_enabled := b; ch_sample_rate := ch_sample_rate c;
     ch_lowpass_order := ch_lowpass_order c;
     ch_lowpass_cutoff_hz := ch_lowpass_cutoff_hz c;
     ch_lowpass_state := ch_lowpass_state c;
     ch_frames := ch_frames c |}.

(** [AddSamples_sfloat(1, frame)]: one stereo frame to the sink. *)
Definition AddSamples_sfloat (f : AudioFrame) (c : MixerChannel) : MixerChannel :=
  {| ch_name := ch_name c; ch_features := ch_features c;
     ch_enabled := ch_enabled c; ch_sample_rate := ch_sample_rate c;
     ch_lowpass_order := ch_lowpass_order c;
     ch_lowpass_cutoff_hz := ch_lowpass_cutoff_hz c;
     ch_lowpass_state := ch_lowpass_state c;
     ch_frames := ch_frames c ++ [f] |}.

Definition ConfigureLowPassFilter (order cutoff : Z) (c : MixerChannel) : MixerChannel :=
  {| ch_name := ch_name c; ch_features := ch_features c;
     ch_enabled := ch_enabled c; ch_sample_rate := ch_sample_rate c;
     ch_lowpass_order := order;
     ch_lowpass_cutoff_hz := cutoff;
     ch_lowpass_state := ch_lowpass_state c;
     ch_frames := ch_frames c |}.

Definition SetLowPassFilter (st : FilterState) (c : MixerChannel) : MixerChannel :=
  {| ch_name := ch_name c; ch_features := ch_features c;
     ch_enabled := ch_enabled c; ch_sample_rate := ch_sample_rate c;
     ch_lowpass_order := ch_lowpass_order c;
     ch_lowpass_cutoff_hz := ch_lowpass_cutoff_hz c;
     ch_lowpass_state := st;
     ch_frames := ch_frames c |}.

(** [MIXER_AddChannel]: a fresh channel running at the mixer's rate.  A
    channel with the [Sleep] feature starts asleep. *)
Definition MIXER_AddChannel (mixer_rate : Z) (name : string)
    (features : list ChannelFeature) : MixerChannel :=
  {| ch_name := name; ch_features := features;
     ch_enabled := false; ch_sample_rate := mixer_rate;
     ch_lowpass_order := 0; ch_lowpass_cutoff_hz := 0;
     ch_lowpass_state := FilterOff;
     ch_frames := [] |}.

(** ** I/O port dispatch *)

Inductive WriteHandler : Type :=
  | data_to_left | control_to_left | data_to_right | control_to_right
  | write_to_detection_port.

Inductive ReadHandler : Type :=
  | read_from_detection_port.

(** An [IO_ReadHandleObject] / [IO_WriteHandleObject] remembers the range
    it registered so that [Uninstall] can free it. *)
Record IO_HandleObject : Type := {
  installed : bool;
  m_port : Z;
  m_range : Z
}.

Definition not_installed : IO_HandleObject :=
  {| installed := false; m_port := 0; m_range := 0 |}.

(** Modelled from the spec: port dispatch registers a byte-width handler
    over an address range; the dispatch table is declared outside the
    source files.  [register_range port range h] binds [h] to the ports
    [port], [port+1], ..., [port+range-1]. *)
Definition register_range {H} (port range : Z) (h : H) (tbl : gmap Z H) : gmap Z H :=
  foldr (fun p t => <[p := h]> t) tbl (seqZ port range).

Definition free_range {H} (port range : Z) (tbl : gmap Z H) : gmap Z H :=
  foldr (fun p t => delete p t) tbl (seqZ port range).

Definition Install {H} (port : Z) (h : H) (range : Z) (tbl : gmap Z H)
    : IO_HandleObject * gmap Z H :=
  ({| installed := true; m_port := port; m_range := range |},
   register_range port range h tbl).

Definition Uninstall {H} (o : IO_HandleObject) (tbl : gmap Z H)
    : IO_HandleObject * gmap Z H :=
  if installed o
  then ({| installed := false; m_port := m_port o; m_range := m_range o |},
        free_range (m_port o) (m_range o) tbl)
  else (o, tbl).

(** ** Logging and configuration *)

Inductive LogLevel : Type := LogInfo | LogMsg | LogWarning.

Inductive LogArg : Type :=
  | ArgString (s : string)
  | ArgInt (v : Z)
  | ArgReal (q : Q).

(** A log call: level, printf format, arguments. *)
Record LogEntry : Type := {
  log_level : LogLevel;
  log_format : string;
  log_args : list LogArg
}.

(** Time comparison [a < b] on the clock values. *)
Definition Qltb (a b : Q) : bool := negb (Qle_bool b a).

Definition Qmaxq (a b : Q) : Q := if Qle_bool a b then b else a.

(** Constants of [gameblaster.h], which is not among the source files. *)
Class Constants : Type := {
  chip_clock : Z;
  render_divisor : Z;
  render_rate_hz : Q;
  ms_per_render : Q;
  use_mixer_rate : Z
}.

(** Helpers of the host program that [Open] calls: the boolean-setting
    parser, the channel's custom-filter parser and the rate the mixer gives
    a channel created with [use_mixer_rate]. *)
Class Host : Type := {
  parse_bool_setting : string -> option bool;
  TryParseAndSetCustomFilter : string -> MixerChannel -> bool * MixerChannel;
  mixer_rate_for : Z -> Z
}.

Definition non_null {A} (p : option A) : bool :=
  match p with Some _ => true | None => false end.

Definition valid_gb_ports : list Z := [0x210; 0x220; 0x230; 0x240; 0x250; 0x260].
Definition valid_cms_ports : list Z :=
  [0x220; 0x240; 0x260; 0x280; 0x2a0; 0x2c0; 0x2e0; 0x300].

Definition contains (l : list Z) (x : Z) : bool := bool_decide (x ∈ l).

Section Device.

Context {D : Type} `{!Saa1099 D} {R : Type} `{!SincResampler R}.
Context `{!Constants} `{!Host}.

(** ** The device object *)

Record GameBlaster : Type := {
  is_open : bool;
  is_standalone_gameblaster : bool;
  base_port : Z;
  devices : option D * option D;
  resamplers : option R * option R;
  channel : option MixerChannel;
  fifo : list AudioFrame;
  last_rendered_ms : Q;
  cms_detect_register : Z;
  write_handlers : list IO_HandleObject;
  write_handler_for_detection : IO_HandleObject;
  read_handler_for_detection : IO_HandleObject
}.

Definition set_devices (v : option D * option D) (s : GameBlaster) : GameBlaster :=
  {| is_open := is_open s; is_standalone_gameblaster := is_standalone_gameblaster s;
     base_port := base_port s; devices := v; resamplers := resamplers s;
     channel := channel s; fifo := fifo s; last_rendered_ms := last_rendered_ms s;
     cms_detect_register := cms_detect_register s;
     write_handlers := write_handlers s;
     write_handler_for_detection := write_handler_for_detection s;
     read_handler_for_detection := read_handler_for_detection s |}.

Definition set_resamplers (v : option R * option R) (s : GameBlaster) : GameBlaster :=
  {| is_open := is_open s; is_standalone_gameblaster := is_standalone_gameblaster s;
     base_port := base_port s; devices := devices s; resamplers := v;
     channel := channel s; fifo := fifo s; last_rendered_ms := last_rendered_ms s;
     cms_detect_register := cms_detect_register s;
     write_handlers := write_handlers s;
     write_handler_for_detection := write_handler_for_detection s;
     read_handler_for_detection := read_handler_for_detection s |}.

Definition set_channel (v : option MixerChannel) (s : GameBlaster) : GameBlaster :=
  {| is_open := is_open s; is_standalone_gameblaster := is_standalone_gameblaster s;
     base_port := base_port s; devices := devices s; resamplers := resamplers s;
     channel := v; fifo := fifo s; last_rendered_ms := last_rendered_ms s;
     cms_detect_register := cms_detect_register s;
     write_handlers := write_handlers s;
     write_handler_for_detection := write_handler_for_detection s;
     read_handler_for_detection := read_handler_for_detection s |}.

Definition set_fifo (v : list AudioFrame) (s : GameBlaster) : GameBlaster :=
  {| is_open := is_open s; is_standalone_gameblaster := is_standalone_gameblaster s;
     base_port := base_port s; devices := devices s; resamplers := resamplers s;
     channel := channel s; fifo := v; last_rendered_ms := last_rendered_ms s;
     cms_detect_register := cms_detect_register s;
     write_handlers := write_handlers s;
     write_handler_for_detection := write_handler_for_detection s;
     read_handler_for_detection := read_handler_for_detection s |}.

Definition set_last_rendered_ms (v : Q) (s : GameBlaster) : GameBlaster :=
  {| is_open := is_open s; is_standalone_gameblaster := is_standalone_gameblaster s;
     base_port := base_port s; devices := devices s; resamplers := resamplers s;
     channel := channel s; fifo := fifo s; last_rendered_ms := v;
     cms_detect_register := cms_detect_register s;
     write_handlers := write_handlers s;
     write_handler_for_detection := write_handler_for_detection s;
     read_handler_for_detection := read_handler_for_detection s |}.

Definition set_cms_detect_register (v : Z) (s : GameBlaster) : GameBlaster :=
  {| is_open := is_open s; is_standalone_gameblaster := is_standalone_gameblaster s;
     base_port := base_port s; devices := devices s; resamplers := resamplers s;
     channel := channel s; fifo := fifo s; last_rendered_ms := last_rendered_ms s;
     cms_detect_register := v;
     write_handlers := write_handlers s;
     write_handler_for_detection := write_handler_for_detection s;
     read_handler_for_detection := read_handler_for_detection s |}.

(** ** Rendering *)

(** [MaybeRenderFrame]: one sample from each chip, summed per side, fed to
    the two resamplers; the frame is written when both report an output.
    The static [buf] is overwritten by each [sound_stream_update] before it
    is read, so it is a local here. *)
Definition MaybeRenderFrame (frame : AudioFrame) (s : GameBlaster)
    : result (bool * AudioFrame * GameBlaster) :=
  d0 ← deref (devices s).1 "devices[0]";
  let '(d0', (l0, r0)) := sound_stream_update d0 in
  let buf := (to_int16 l0, to_int16 r0) in
  let left_accum := buf.1 in
  let right_accum := buf.2 in
  d1 ← deref (devices s).2 "devices[1]";
  let '(d1', (l1, r1)) := sound_stream_update d1 in
  let buf := (to_int16 l1, to_int16 r1) in
  let left_accum := int_add left_accum buf.1 in
  let right_accum := int_add right_accum buf.2 in
  let s := set_devices (Some d0', Some d1') s in
  let s := set_last_rendered_ms (last_rendered_ms s + ms_per_render)%Q s in
  rs0 ← deref (resamplers s).1 "resamplers[0]";
  let '(l_ready, rs0') := input rs0 left_accum in
  rs1 ← deref (resamplers s).2 "resamplers[1]";
  let '(r_ready, rs1') := input rs1 right_accum in
  let s := set_resamplers (Some rs0', Some rs1') s in
  _ ← assert (bool_decide (l_ready = r_ready)) "l_ready == r_ready";
  let frame_is_ready := l_ready && r_ready in
  let frame :=
    if frame_is_ready
    then {| left := output rs0'; right := output rs1' |}
    else frame in
  Ok (frame_is_ready, frame, s).

(** The [while (last_rendered_ms < now)] loop of [RenderUpToNow].  [fuel]
    bounds the number of iterations; the guard is tested before fuel is
    spent, so running out means the loop wanted to go on. *)
Fixpoint render_loop (fuel : nat) (now : Q) (s : GameBlaster) : result GameBlaster :=
  if Qltb (last_rendered_ms s) now then
    match fuel with
    | O => Abort OutOfFuel
    | S fuel' =>
        let s := set_last_rendered_ms (last_rendered_ms s + ms_per_render)%Q s in
        '(ready, f, s) ← MaybeRenderFrame zero_frame s;
        let s := if (ready : bool) then set_fifo (fifo s ++ [f]) s else s in
        render_loop fuel' now s
    end
  else Ok s.

(** Iterations that suffice for the loop: the clock gains at least one
    [ms_per_render] per iteration. *)
Definition loop_bound (now : Q) (s : GameBlaster) : nat :=
  Z.to_nat (Qceiling ((now - last_rendered_ms s) / ms_per_render)).

(** [RenderUpToNow]; [now] is what [PIC_FullIndex()] returns. *)
Definition RenderUpToNow (now : Q) (s : GameBlaster) : result GameBlaster :=
  _ ← assert (non_null (channel s)) "channel";
  c ← deref (channel s) "channel";
  let '(woke, c) := WakeUp c in
  let s := set_channel (Some c) s in
  if woke then Ok (set_last_rendered_ms now s)
  else render_loop (loop_bound now s) now s.

(** ** Register writes *)

Definition WriteDataToLeftDevice (now : Q) (value : Z) (s : GameBlaster)
    : result GameBlaster :=
  s ← RenderUpToNow now s;
  v ← check_cast_uint8 value;
  d ← deref (devices s).1 "devices[0]";
  Ok (set_devices (Some (data_w d v), (devices s).2) s).

Definition WriteControlToLeftDevice (now : Q) (value : Z) (s : GameBlaster)
    : result GameBlaster :=
  s ← RenderUpToNow now s;
  v ← check_cast_uint8 value;
  d ← deref (devices s).1 "devices[0]";
  Ok (set_devices (Some (control_w d v), (devices s).2) s).

Definition WriteDataToRightDevice (now : Q) (value : Z) (s : GameBlaster)
    : result GameBlaster :=
  s ← RenderUpToNow now s;
  v ← check_cast_uint8 value;
  d ← deref (devices s).2 "devices[1]";
  Ok (set_devices ((devices s).1, Some (data_w d v)) s).

Definition WriteControlToRightDevice (now : Q) (value : Z) (s : GameBlaster)
    : result GameBlaster :=
  s ← RenderUpToNow now s;
  v ← check_cast_uint8 value;
  d ← deref (devices s).2 "devices[1]";
  Ok (set_devices ((devices s).1, Some (control_w d v)) s).

(** ** The mixer callback *)

(** First loop of [AudioCallback]: queued frames go to the sink, oldest
    first, while frames are wanted and the queue is not empty. *)
Fixpoint drain_fifo (frames_remaining : nat) (q : list AudioFrame) (c : MixerChannel)
    : nat * list AudioFrame * MixerChannel :=
  match frames_remaining, q with
  | S n, f :: q' => drain_fifo n q' (AddSamples_sfloat f c)
  | _, _ => (frames_remaining, q, c)
  end.

(** Second loop of [AudioCallback]: one render per remaining count. *)
Fixpoint render_remainder (frames_remaining : nat) (s : GameBlaster)
    : result GameBlaster :=
  match frames_remaining with
  | O => Ok s
  | S n =>
      '(ready, f, s) ← MaybeRenderFrame zero_frame s;
      s ← (if (ready : bool)
           then c ← deref (channel s) "channel";
                Ok (set_channel (Some (AddSamples_sfloat f c)) s)
           else Ok s);
      render_remainder n s
  end.

(** [AudioCallback]; [requested_frames] is a [uint16_t] that only counts
    down to zero, a natural number here. *)
Definition AudioCallback (now : Q) (requested_frames : nat) (s : GameBlaster)
    : result GameBlaster :=
  _ ← assert (non_null (channel s)) "channel";
  c ← deref (channel s) "channel";
  let '(frames_remaining, q, c) := drain_fifo requested_frames (fifo s) c in
  let s := set_fifo q (set_channel (Some c) s) in
  s ← render_remainder frames_remaining s;
  Ok (set_last_rendered_ms now s).

(** ** The detection register *)

Definition WriteToDetectionPort (port value : Z) (s : GameBlaster)
    : result GameBlaster :=
  let offset := port - base_port s in
  if bool_decide (offset = 0x6) || bool_decide (offset = 0x7)
  then v ← check_cast_uint8 value; Ok (set_cms_detect_register v s)
  else Ok s.

Definition ReadFromDetectionPort (port : Z) (s : GameBlaster) : Z :=
  let retval := 0xff in
  let offset := port - base_port s in
  if bool_decide (offset = 0x4) then 0x7f
  else if bool_decide (offset = 0xa) || bool_decide (offset = 0xb)
       then cms_detect_register s
       else retval.

(** ** The machine around the device *)

(** The device, the I/O dispatch tables its handlers are bound in, the
    configuration store and the log. *)
Record Machine : Type := {
  gameblaster : GameBlaster;
  io_write_handlers : gmap Z WriteHandler;
  io_read_handlers : gmap Z ReadHandler;
  config : gmap (string * string) string;
  log : list LogEntry
}.

Definition set_gameblaster (g : GameBlaster) (m : Machine) : Machine :=
  {| gameblaster := g; io_write_handlers := io_write_handlers m;
     io_read_handlers := io_read_handlers m; config := config m; log := log m |}.

Definition log_call (lvl : LogLevel) (fmt : string) (args : list LogArg)
    (l : list LogEntry) : list LogEntry :=
  l ++ [{| log_level := lvl; log_format := fmt; log_args := args |}].

(** [set_section_property_value(section, property, value)]. *)
Definition set_section_property_value (section property value : string)
    (c : gmap (string * string) string) : gmap (string * string) string :=
  <[(section, property) := value]> c.

(** [for (auto &w : write_handlers) w.Uninstall();] *)
Fixpoint uninstall_all (ws : list IO_HandleObject) (tbl : gmap Z WriteHandler)
    : list IO_HandleObject * gmap Z WriteHandler :=
  match ws with
  | [] => ([], tbl)
  | w :: ws' =>
      let '(w', tbl) := Uninstall w tbl in
      let '(ws'', tbl) := uninstall_all ws' tbl in
      (w' :: ws'', tbl)
  end.

Definition Close (m : Machine) : result Machine :=
  let s := gameblaster m in
  if negb (is_open s) then Ok m
  else
    let lg := log_call LogInfo "CMS: Shutting down" [] (log m) in
    let '(ws, wt) := uninstall_all (write_handlers s) (io_write_handlers m) in
    let '(wd, wt) := Uninstall (write_handler_for_detection s) wt in
    let '(rd, rt) := Uninstall (read_handler_for_detection s) (io_read_handlers m) in
    let ch := Enable false <$> channel s in
    _ ← assert (non_null ch) "channel";
    Ok {| gameblaster :=
            {| is_open := false;
               is_standalone_gameblaster := is_standalone_gameblaster s;
               base_port := base_port s;
               devices := (None, None);
               resamplers := (None, None);
               channel := None;
               fifo := fifo s;
               last_rendered_ms := last_rendered_ms s;
               cms_detect_register := cms_detect_register s;
               write_handlers := ws;
               write_handler_for_detection := wd;
               read_handler_for_detection := rd |};
          io_write_handlers := wt;
          io_read_handlers := rt;
          config := config m;
          log := lg |}.

(** The [enable_filter] lambda of [Open]. *)
Definition enable_filter (c : MixerChannel) : MixerChannel :=
  let Order := 1 in
  let CutoffFreqHz := 6000 in
  SetLowPassFilter FilterOn (ConfigureLowPassFilter Order CutoffFreqHz c).

Definition Open (port_choice : Z) (card_choice filter_choice : string) (m : Machine)
    : result Machine :=
  m ← Close m;
  let s := gameblaster m in
  _ ← assert (negb (is_open s)) "!is_open";
  let standalone := bool_decide (card_choice = "gb") in
  let valid_ports := if standalone then valid_gb_ports else valid_cms_ports in
  port ← check_cast_io_port port_choice;
  _ ← assert (contains valid_ports port) "contains(valid_ports, base_port)";
  (* the two SAA1099 devices *)
  let d0 := device_start chip_clock render_divisor in
  let d1 := device_start chip_clock render_divisor in
  (* the four chip ports *)
  let '(w0, wt) := Install port data_to_left 1 (io_write_handlers m) in
  let '(w1, wt) := Install (to_io_port (port + 1)) control_to_left 1 wt in
  let '(w2, wt) := Install (to_io_port (port + 2)) data_to_right 1 wt in
  let '(w3, wt) := Install (to_io_port (port + 3)) control_to_right 1 wt in
  (* the detection chip, on a Game Blaster only *)
  let '(rd, rt, wd, wt) :=
    if standalone then
      let '(rd, rt) := Install port read_from_detection_port 16 (io_read_handlers m) in
      let '(wd, wt) := Install (to_io_port (port + 4)) write_to_detection_port 12 wt in
      (rd, rt, wd, wt)
    else (read_handler_for_detection s, io_read_handlers m,
          write_handler_for_detection s, wt) in
  (* the mixer channel *)
  let ch := MIXER_AddChannel (mixer_rate_for use_mixer_rate) "CMS"
              [Sleep; Stereo; ReverbSend; ChorusSend; Synthesizer] in
  (* the low-pass filter *)
  let '(ch, cfg, lg) :=
    match parse_bool_setting filter_choice with
    | Some true => (enable_filter ch, config m, log m)
    | Some false => (SetLowPassFilter FilterOff ch, config m, log m)
    | None =>
        let '(parsed, ch) := TryParseAndSetCustomFilter filter_choice ch in
        if parsed then (ch, config m, log m)
        else
          let lg := log_call LogWarning
                      "CMS: Invalid 'cms_filter' setting: '%s', using 'on'"
                      [ArgString filter_choice] (log m) in
          let cfg := set_section_property_value "sblaster" "cms_filter" "on" (config m) in
          (enable_filter ch, cfg, lg)
    end in
  (* the resamplers, from the render rate to the mixer's frame rate *)
  let frame_rate_hz := inject_Z (ch_sample_rate ch) in
  let max_freq := Qmaxq (frame_rate_hz * (9 # 10) / 2) 8000 in
  let r0 := create render_rate_hz frame_rate_hz max_freq in
  let r1 := create render_rate_hz frame_rate_hz max_freq in
  let lg := log_call LogMsg
              "CMS: Running on port %xh with two %0.3f MHz Phillips SAA-1099 chips"
              [ArgInt port; ArgReal (inject_Z chip_clock / 1000000)] lg in
  let s :=
    {| is_open := is_open s;
       is_standalone_gameblaster := standalone;
       base_port := port;
       devices := (Some d0, Some d1);
       resamplers := (Some r0, Some r1);
       channel := Some ch;
       fifo := fifo s;
       last_rendered_ms := last_rendered_ms s;
       cms_detect_register := cms_detect_register s;
       write_handlers := [w0; w1; w2; w3];
       write_handler_for_detection := wd;
       read_handler_for_detection := rd |} in
  _ ← assert (non_null (channel s)) "channel";
  _ ← assert (non_null (devices s).1) "devices[0]";
  _ ← assert (non_null (devices s).2) "devices[1]";
  _ ← assert (non_null (resamplers s).1) "resamplers[0]";
  _ ← assert (non_null (resamplers s).2) "resamplers[1]";
  Ok {| gameblaster :=
          {| is_open := true;
             is_standalone_gameblaster := is_standalone_gameblaster s;
             base_port := base_port s;
             devices := devices s;
             resamplers := resamplers s;
             channel := channel s;
             fifo := fifo s;
             last_rendered_ms := last_rendered_ms s;
             cms_detect_register := cms_detect_register s;
             write_handlers := write_handlers s;
             write_handler_for_detection := write_handler_for_detection s;
             read_handler_for_detection := read_handler_for_detection s |};
        io_write_handlers := wt;
        io_read_handlers := rt;
        config := cfg;
        log := lg |}.

(** ** Port accesses of the guest *)

(** A byte write to [port] at emulated time [now]: the handler bound to
    the port runs; a port nobody handles ignores the write. *)
Definition IO_WriteB (now : Q) (port value : Z) (m : Machine) : result Machine :=
  match io_write_handlers m !! port with
  | Some data_to_left =>
      g ← WriteDataToLeftDevice now value (gameblaster m); Ok (set_gameblaster g m)
  | Some control_to_left =>
      g ← WriteControlToLeftDevice now value (gameblaster m); Ok (set_gameblaster g m)
  | Some data_to_right =>
      g ← WriteDataToRightDevice now value (gameblaster m); Ok (set_gameblaster g m)
  | Some control_to_right =>
      g ← WriteControlToRightDevice now value (gameblaster m); Ok (set_gameblaster g m)
  | Some write_to_detection_port =>
      g ← WriteToDetectionPort port value (gameblaster m); Ok (set_gameblaster g m)
  | None => Ok m
  end.

(** A byte read from [port]: [None] when no handler is bound there. *)
Definition IO_ReadB (port : Z) (m : Machine) : option Z :=
  match io_read_handlers m !! port with
  | Some read_from_detection_port => Some (ReadFromDetectionPort port (gameblaster m))
  | None => None
  end.

(** ** Vocabulary of the properties *)

(** The frames the sink has received so far. *)
Definition sink_frames (s : GameBlaster) : list AudioFrame :=
  from_option ch_frames [] (channel s).

(** A chip after [k] one-sample renders. *)
Definition rendered (k : nat) (d : D) : D :=
  Nat.iter k (fun d => (sound_stream_update d).1) d.

(** A resampler after the inputs [xs]. *)
Fixpoint feed (r : R) (xs : list Z) : R :=
  match xs with
  | [] => r
  | x :: xs' => feed (input r x).2 xs'
  end.

(** The two resamplers answer alike once they have taken equally many
    inputs, whatever the inputs were: what [assert(l_ready == r_ready)]
    relies on. *)
Definition readiness_agrees (r0 r1 : R) : Prop :=
  forall (xs ys : list Z) (x y : Z),
    length xs = length ys ->
    (input (feed r0 xs) x).1 = (input (feed r1 ys) y).1.

(** [Close] on an open device needs its channel. *)
Definition closable (m : Machine) : Prop :=
  is_open (gameblaster m) = true -> non_null (channel (gameblaster m)) = true.

Definition valid_ports_for (card_choice : string) : list Z :=
  if bool_decide (card_choice = "gb") then valid_gb_ports else valid_cms_ports.

(** A register write applied to one chip of the pair. *)
Definition on_left (f : D -> D) (s : GameBlaster) : GameBlaster :=
  set_devices (f <$> (devices s).1, (devices s).2) s.
Definition on_right (f : D -> D) (s : GameBlaster) : GameBlaster :=
  set_devices ((devices s).1, f <$> (devices s).2) s.

(** A run of detection-port writes, in order. *)
Fixpoint detection_writes (ws : list (Z * Z)) (s : GameBlaster) : result GameBlaster :=
  match ws with
  | [] => Ok s
  | (port, value) :: ws' =>
      s ← WriteToDetectionPort port value s; detection_writes ws' s
  end.

(** The frames that [k] renders in a row yield, oldest first: a render
    contributes a frame when both resamplers have an output ready and
    nothing otherwise. *)
Fixpoint live_frames (k : nat) (d0 d1 : D) (r0 r1 : R) : list AudioFrame :=
  match k with
  | O => []
  | S k' =>
      let u0 := sound_stream_update d0 in
      let u1 := sound_stream_update d1 in
      let l := input r0 (to_int16 u0.2.1 + to_int16 u1.2.1) in
      let r := input r1 (to_int16 u0.2.2 + to_int16 u1.2.2) in
      (if l.1 && r.1 then [{| left := output l.2; right := output r.2 |}] else [])
      ++ live_frames k' u0.1 u1.1 l.2 r.2
  end.

(** The resamplers after [k] renders in a row. *)
Fixpoint resampled (k : nat) (d0 d1 : D) (r0 r1 : R) : R * R :=
  match k with
  | O => (r0, r1)
  | S k' =>
      let u0 := sound_stream_update d0 in
      let u1 := sound_stream_update d1 in
      let l := input r0 (to_int16 u0.2.1 + to_int16 u1.2.1) in
      let r := input r1 (to_int16 u0.2.2 + to_int16 u1.2.2) in
      resampled k' u0.1 u1.1 l.2 r.2
  end.

(** What reaches an open device from outside: a byte the guest writes to
    a port at some emulated time, a callback of the mixer for a number of
    frames, and the mixer putting the idle channel to sleep. *)
Inductive GuestEvent : Type :=
  | GuestWrite (now : Q) (port value : Z)
  | MixerCallback (now : Q) (requested_frames : nat)
  | MixerSleep.

Definition guest_step (e : GuestEvent) (m : Machine) : result Machine :=
  match e with
  | GuestWrite now port value => IO_WriteB now port value m
  | MixerCallback now requested_frames =>
      g ← AudioCallback now requested_frames (gameblaster m);
      Ok (set_gameblaster g m)
  | MixerSleep =>
      Ok (set_gameblaster
            (set_channel (Enable false <$> channel (gameblaster m)) (gameblaster m))
            m)
  end.

(** A run of such events, in order. *)
Fixpoint guest_run (es : list GuestEvent) (m : Machine) : result Machine :=
  match es with
  | [] => Ok m
  | e :: es' => m ← guest_step e m; guest_run es' m
  end.

(** How many frames one [AudioCallback] hands to the sink. *)
Definition delivered (now : Q) (requested_frames : nat) (s : GameBlaster)
    : result nat :=
  s' ← AudioCallback now requested_frames s;
  Ok (length (sink_frames s') - length (sink_frames s))%nat.

End Device.

Arguments GameBlaster : clear implicits.
Arguments Machine : clear implicits.

(** ** A small concrete instance

    A chip that outputs its last data byte on the left and its last control
    byte on the right, and a resampler that yields its latest input on
    every [period]-th input. *)
Module Sample.

Record chip : Type := { last_data : Z; last_control : Z; renders : nat }.

Global Instance chip_saa1099 : Saa1099 chip := {|
  device_start := fun _ _ => {| last_data := 0; last_control := 0; renders := 0 |};
  data_w := fun d v =>
    {| last_data := v; last_control := last_control d; renders := renders d |};
  control_w := fun d v =>
    {| last_data := last_data d; last_control := v; renders := renders d |};
  sound_stream_update := fun d =>
    ({| last_data := last_data d; last_control := last_control d;
        renders := S (renders d) |},
     (last_data d, last_control d))
|}.

Record decimator : Type := { period : nat; phase : nat; held : Z }.

Global Instance decimator_resampler : SincResampler decimator := {|
  create := fun rate_in rate_out _ =>
    {| period := Z.to_nat (Qfloor (rate_in / rate_out)); phase := 0; held := 0 |};
  input := fun r x =>
    let ready := bool_decide (S (phase r) = period r) in
    (ready,
     {| period := period r;
        phase := if ready then 0%nat else S (phase r);
        held := x |});
  output := held
|}.

(** A 7.159 MHz chip clock divided by 32. *)
Global Instance constants : Constants := {|
  chip_clock := 7159090;
  render_divisor := 32;
  render_rate_hz := 223722;
  ms_per_render := 1000 / 223722;
  use_mixer_rate := 0
|}.

Definition is_true_word (s : string) : bool :=
  bool_decide (s ∈ ["1"; "enabled"; "on"; "true"; "yes"]).
Definition is_false_word (s : string) : bool :=
  bool_decide (s ∈ ["0"; "disabled"; "off"; "false"; "no"]).

(** A host with a 48 kHz mixer whose channels accept no custom filter. *)
Global Instance host : Host := {|
  parse_bool_setting := fun s =>
    if is_true_word s then Some true
    else if is_false_word s then Some false
    else None;
  TryParseAndSetCustomFilter := fun _ c => (false, c);
  mixer_rate_for := fun _ => 48000
|}.

Definition closed_device : GameBlaster chip decimator :=
  {| is_open := false; is_standalone_gameblaster := false; base_port := 0;
     devices := (None, None); resamplers := (None, None); channel := None;
     fifo := []; last_rendered_ms := 0; cms_detect_register := 0xff;
     write_handlers := [not_installed; not_installed; not_installed; not_installed];
     write_handler_for_detection := not_installed;
     read_handler_for_detection := not_installed |}.

Definition power_on : Machine chip decimator :=
  {| gameblaster := closed_device; io_write_handlers := ∅;
     io_read_handlers := ∅; config := ∅; log := [] |}.

(** A device as [Open] leaves it, the channel already awake. *)
Definition awake_channel : MixerChannel :=
  (WakeUp (enable_filter (MIXER_AddChannel 48000 "CMS"
     [Sleep; Stereo; ReverbSend; ChorusSend; Synthesizer]))).2.

Definition installed_at (port range : Z) : IO_HandleObject :=
  {| installed := true; m_port := port; m_range := range |}.

Definition awake_device : GameBlaster chip decimator :=
  {| is_open := true; is_standalone_gameblaster := true; base_port := 0x220;
     devices := (Some (device_start 7159090 32), Some (device_start 7159090 32));
     resamplers := (Some (create 223722 48000 21600),
                    Some (create 223722 48000 21600));
     channel := Some awake_channel;
     fifo := []; last_rendered_ms := 0; cms_detect_register := 0xff;
     write_handlers := [installed_at 0x220 1; installed_at 0x221 1;
                        installed_at 0x222 1; installed_at 0x223 1];
     write_handler_for_detection := installed_at 0x224 12;
     read_handler_for_detection := installed_at 0x220 16 |}.

(** The same device with three frames waiting in the queue. *)
Definition queued_device : GameBlaster chip decimator :=
  set_fifo [ {| left := 1; right := -1 |};
             {| left := 2; right := -2 |};
             {| left := 3; right := -3 |} ] awake_device.

(** The same device with the channel asleep. *)
Definition asleep_device : GameBlaster chip decimator :=
  set_channel (Enable false <$> channel awake_device) awake_device.

(** A device that has played: the left chip holds data 5 and control 7,
    the right chip data 3 and control 2, and three samples have gone into
    the resamplers since their last output. *)
Definition playing_device : GameBlaster chip decimator :=
  {| is_open := true; is_standalone_gameblaster := true; base_port := 0x220;
     devices := (Some {| last_data := 5; last_control := 7; renders := 3 |},
                 Some {| last_data := 3; last_control := 2; renders := 3 |});
     resamplers := (Some {| period := 4; phase := 3; held := 8 |},
                    Some {| period := 4; phase := 3; held := 9 |});
     channel := Some awake_channel;
     fifo := [];
     last_rendered_ms :=
       (0 + ms_per_render + ms_per_render + ms_per_render
        + ms_per_render + ms_per_render + ms_per_render)%Q;
     cms_detect_register := 0xff;
     write_handlers := [installed_at 0x220 1; installed_at 0x221 1;
                        installed_at 0x222 1; installed_at 0x223 1];
     write_handler_for_detection := installed_at 0x224 12;
     read_handler_for_detection := installed_at 0x220 16 |}.

End Sample.

(** * Properties *)

(** ** Machine integers *)

Lemma to_int16_range (v : Z) : -32768 <= to_int16 v < 32768.
Proof. unfold to_int16. pose proof (Z.mod_pos_bound (v + 32768) 65536). lia. Qed.

(** Two [int16_t] values add in [int] without wrapping. *)
Lemma int_add_int16 (a b : Z) :
  int_add (to_int16 a) (to_int16 b) = to_int16 a + to_int16 b.
Proof.
  pose proof (to_int16_range a). pose proof (to_int16_range b).
  unfold int_add. rewrite Z.mod_small by lia. lia.
Qed.

Lemma check_cast_uint8_byte (v : Z) : 0 <= v <= 255 -> check_cast_uint8 v = Ok v.
Proof.
  intros Hv. unfold check_cast_uint8, in_uint8.
  replace (0 <=? v) with true by (symmetry; apply Z.leb_le; lia).
  replace (v <=? 255) with true by (symmetry; apply Z.leb_le; lia).
  cbn. f_equal. apply Z.mod_small. lia.
Qed.

(** Membership in a literal list, as a disjunction of equations. *)
Ltac list_cases H :=
  repeat (apply elem_of_cons in H as [H | H]);
  [.. | by apply elem_of_nil in H].

Section Properties.

Context {D : Type} `{!Saa1099 D} {R : Type} `{!SincResampler R}.
Context `{!Constants} `{!Host}.

Implicit Types (s : GameBlaster D R) (m : Machine D R) (now : Q).

(** ** The detection register *)

Lemma WriteToDetectionPort_base_port port value s s' :
  WriteToDetectionPort port value s = Ok s' -> base_port s' = base_port s.
Proof.
  unfold WriteToDetectionPort. case_match.
  - unfold check_cast_uint8, assert. case_match; cbn; [|done].
    intros [= <-]. done.
  - by intros [= <-].
Qed.

Lemma detection_writes_base_port ws s s' :
  detection_writes ws s = Ok s' -> base_port s' = base_port s.
Proof.
  revert s. induction ws as [|[port value] ws IH]; intros s; cbn.
  - by intros [= <-].
  - destruct (WriteToDetectionPort port value s) as [s1|] eqn:E; cbn; [|done].
    intros Hrest. rewrite (IH _ Hrest). by eapply WriteToDetectionPort_base_port.
Qed.

(** C6. On the detection chip of a Game Blaster: a read at offset +4 gives
    0x7F whatever was written before; a byte [v] written at +6 or +7 is
    read back at +0xA and +0xB; reads at +8 and +9 give 0xFF; a write at
    any other offset than +6 and +7 changes nothing. *)
Theorem detection_protocol s (v : Z) :
  0 <= v <= 255 ->
  (forall ws s', detection_writes ws s = Ok s' ->
     ReadFromDetectionPort (base_port s + 0x4) s' = 0x7f)
  /\ (forall off_w off_r, off_w ∈ [0x6; 0x7] -> off_r ∈ [0xa; 0xb] ->
      exists s', WriteToDetectionPort (base_port s + off_w) v s = Ok s'
                 /\ cms_detect_register s' = v
                 /\ ReadFromDetectionPort (base_port s + off_r) s' = v)
  /\ (forall off, off ∈ [0x8; 0x9] ->
      ReadFromDetectionPort (base_port s + off) s = 0xff)
  /\ (forall off value, off <> 0x6 -> off <> 0x7 ->
      WriteToDetectionPort (base_port s + off) value s = Ok s).
Proof.
  intros Hv. repeat split.
  - intros ws s' Hws. apply detection_writes_base_port in Hws.
    unfold ReadFromDetectionPort. rewrite Hws.
    rewrite bool_decide_eq_true_2 by lia. done.
  - intros off_w off_r Hw Hr.
    exists (set_cms_detect_register v s).
    unfold WriteToDetectionPort, ReadFromDetectionPort.
    rewrite check_cast_uint8_byte by done. cbn.
    replace (base_port s + off_w - base_port s) with off_w by lia.
    replace (base_port s + off_r - base_port s) with off_r by lia.
    list_cases Hw; list_cases Hr; subst; done.
  - intros off Hoff.
    unfold ReadFromDetectionPort.
    list_cases Hoff; subst; rewrite !bool_decide_eq_false_2 by lia; done.
  - intros off value H6 H7. unfold WriteToDetectionPort.
    rewrite !bool_decide_eq_false_2 by lia. done.
Qed.

(** ** The one-frame render *)

(** C7. With both chips and both resamplers in place, [MaybeRenderFrame]
    feeds the left resampler the plain sum of the two chips' left outputs
    and the right resampler the plain sum of their right outputs.  When the
    two resamplers agree on readiness it returns that readiness, writing the
    frame from the two resampler outputs exactly when both are ready and
    leaving it alone otherwise; when they disagree the assertion fails. *)
Theorem MaybeRenderFrame_sums_and_readiness
    (frame : AudioFrame) s (d0 d1 : D) (rs0 rs1 : R) :
  devices s = (Some d0, Some d1) ->
  resamplers s = (Some rs0, Some rs1) ->
  let out0 := (sound_stream_update d0).2 in
  let out1 := (sound_stream_update d1).2 in
  let left_sum := to_int16 out0.1 + to_int16 out1.1 in
  let right_sum := to_int16 out0.2 + to_int16 out1.2 in
  let l := input rs0 left_sum in
  let r := input rs1 right_sum in
  if bool_decide (l.1 = r.1) then
    exists s',
      MaybeRenderFrame frame s =
        Ok (l.1 && r.1,
            (if l.1 && r.1
             then {| left := output l.2; right := output r.2 |}
             else frame),
            s')
      /\ devices s' = (Some (sound_stream_update d0).1, Some (sound_stream_update d1).1)
      /\ resamplers s' = (Some l.2, Some r.2)
      /\ last_rendered_ms s' = (last_rendered_ms s + ms_per_render)%Q
      /\ fifo s' = fifo s
      /\ channel s' = channel s
  else
    MaybeRenderFrame frame s = Abort (AssertionFailed "l_ready == r_ready").
Proof.
  intros Hdev Hres. unfold MaybeRenderFrame. rewrite Hdev. cbn.
  destruct (sound_stream_update d0) as [d0' [l0 r0]].
  destruct (sound_stream_update d1) as [d1' [l1 r1]].
  cbn. rewrite Hres. cbn. rewrite !int_add_int16.
  destruct (input rs0 (to_int16 l0 + to_int16 l1)) as [l_ready rs0'].
  destruct (input rs1 (to_int16 r0 + to_int16 r1)) as [r_ready rs1'].
  cbn. case_bool_decide; cbn; [|done].
  eexists. split; [reflexivity|]. cbn. done.
Qed.

(** ** Catch-up *)

Lemma WakeUp_awake (c : MixerChannel) : (WakeUp c).1 = false -> (WakeUp c).2 = c.
Proof.
  unfold WakeUp. destruct c as [? ? en ? ? ? ? ?]. cbn.
  destruct en; cbn; [done|discriminate].
Qed.

Lemma set_channel_same s c : channel s = Some c -> set_channel (Some c) s = s.
Proof. destruct s. cbn. by intros ->. Qed.

Lemma Qltb_lt (a b : Q) : Qltb a b = true <-> (a < b)%Q.
Proof.
  unfold Qltb. rewrite negb_true_iff. split.
  - intros Hf. apply Qnot_le_lt. intros Hle.
    apply Qle_bool_iff in Hle. congruence.
  - intros Hlt. destruct (Qle_bool b a) eqn:E; [|done].
    apply Qle_bool_iff in E. exfalso. by eapply Qlt_not_le.
Qed.

Lemma Qltb_ge (a b : Q) : Qltb a b = false <-> (b <= a)%Q.
Proof.
  unfold Qltb. rewrite negb_false_iff. apply Qle_bool_iff.
Qed.

(** C4. When the channel was asleep, so that [WakeUp] answers true,
    [RenderUpToNow] renders nothing: chips, resamplers, queue and the
    frames at the sink stay as they were, and the render clock is [now]. *)
Theorem RenderUpToNow_wake_skips_rendering now s (c : MixerChannel) :
  channel s = Some c ->
  (WakeUp c).1 = true ->
  exists s',
    RenderUpToNow now s = Ok s'
    /\ last_rendered_ms s' = now
    /\ fifo s' = fifo s
    /\ devices s' = devices s
    /\ resamplers s' = resamplers s
    /\ sink_frames s' = sink_frames s.
Proof.
  intros Hc Hwake. unfold RenderUpToNow. rewrite Hc. cbn.
  destruct (WakeUp c) as [woke c'] eqn:HW. cbn in Hwake. subst woke.
  eexists. split; [reflexivity|]. unfold sink_frames. cbn. rewrite Hc. cbn.
  repeat split; try done.
  unfold WakeUp in HW. by injection HW as _ <-.
Qed.

(** C5. With the channel awake and the render clock equal to [now],
    [RenderUpToNow] returns the device exactly as it was: clock, queue,
    chips and resamplers included. *)
Theorem RenderUpToNow_when_current now s (c : MixerChannel) :
  channel s = Some c ->
  (WakeUp c).1 = false ->
  (last_rendered_ms s == now)%Q ->
  RenderUpToNow now s = Ok s
  /\ forall s', RenderUpToNow now s = Ok s' ->
       last_rendered_ms s' = last_rendered_ms s /\ fifo s' = fifo s
       /\ devices s' = devices s /\ resamplers s' = resamplers s
       /\ sink_frames s' = sink_frames s.
Proof.
  intros Hc Hawake Hnow.
  assert (RenderUpToNow now s = Ok s) as Heq.
  { unfold RenderUpToNow. rewrite Hc. cbn.
    pose proof (WakeUp_awake c Hawake) as Hsame.
    destruct (WakeUp c) as [woke c']. cbn in Hawake, Hsame. subst woke c'.
    rewrite (set_channel_same s c Hc).
    assert (Qltb (last_rendered_ms s) now = false) as Hguard.
    { apply Qltb_ge. rewrite Hnow. apply Qle_refl. }
    destruct (loop_bound now s); cbn; by rewrite Hguard. }
  split; [done|]. intros s' Hs'. rewrite Heq in Hs'. by injection Hs' as <-.
Qed.

(** ** Rendering on a device in working order *)

Lemma readiness_agrees_now (r0 r1 : R) (x y : Z) :
  readiness_agrees r0 r1 -> (input r0 x).1 = (input r1 y).1.
Proof. intros Hag. by apply (Hag [] []). Qed.

Lemma readiness_agrees_input (r0 r1 : R) (x y : Z) :
  readiness_agrees r0 r1 -> readiness_agrees (input r0 x).2 (input r1 y).2.
Proof.
  intros Hag xs ys x' y' Hlen.
  apply (Hag (x :: xs) (y :: ys)). cbn. by rewrite Hlen.
Qed.

(** One render on a device in working order: the explicit outcome. *)
Lemma MaybeRenderFrame_ok (frame : AudioFrame) s (d0 d1 : D) (r0 r1 : R) :
  devices s = (Some d0, Some d1) ->
  resamplers s = (Some r0, Some r1) ->
  readiness_agrees r0 r1 ->
  let u0 := sound_stream_update d0 in
  let u1 := sound_stream_update d1 in
  let l := input r0 (to_int16 u0.2.1 + to_int16 u1.2.1) in
  let r := input r1 (to_int16 u0.2.2 + to_int16 u1.2.2) in
  MaybeRenderFrame frame s =
    Ok (l.1 && r.1,
        (if l.1 && r.1
         then {| left := output l.2; right := output r.2 |}
         else frame),
        set_resamplers (Some l.2, Some r.2)
          (set_last_rendered_ms (last_rendered_ms s + ms_per_render)%Q
             (set_devices (Some u0.1, Some u1.1) s))).
Proof.
  intros Hdev Hres Hag. cbn zeta.
  pose proof (readiness_agrees_now r0 r1
    (to_int16 (sound_stream_update d0).2.1 + to_int16 (sound_stream_update d1).2.1)
    (to_int16 (sound_stream_update d0).2.2 + to_int16 (sound_stream_update d1).2.2)
    Hag) as Hready.
  unfold MaybeRenderFrame. rewrite Hdev. cbn.
  destruct (sound_stream_update d0) as [d0' [l0 q0]].
  destruct (sound_stream_update d1) as [d1' [l1 q1]].
  cbn in *. rewrite Hres. cbn. rewrite !int_add_int16.
  destruct (input r0 (to_int16 l0 + to_int16 l1)) as [l_ready r0'].
  destruct (input r1 (to_int16 q0 + to_int16 q1)) as [r_ready r1'].
  cbn in *. subst r_ready. rewrite bool_decide_eq_true_2 by done. done.
Qed.

Lemma rendered_S (k : nat) (d : D) :
  rendered (S k) d = rendered k (sound_stream_update d).1.
Proof. unfold rendered. by rewrite Nat.iter_succ_r. Qed.

Lemma length_live_frames (k : nat) (d0 d1 : D) (r0 r1 : R) :
  (length (live_frames k d0 d1 r0 r1) <= k)%nat.
Proof.
  revert d0 d1 r0 r1. induction k as [|k IH]; intros; cbn; [lia|].
  rewrite length_app. specialize (IH (sound_stream_update d0).1
    (sound_stream_update d1).1
    (input r0 (to_int16 (sound_stream_update d0).2.1
               + to_int16 (sound_stream_update d1).2.1)).2
    (input r1 (to_int16 (sound_stream_update d0).2.2
               + to_int16 (sound_stream_update d1).2.2)).2).
  case_match; cbn; lia.
Qed.

(** ** The mixer callback *)

Lemma drain_fifo_spec (n : nat) (q : list AudioFrame) (c : MixerChannel) :
  drain_fifo n q c =
    ((n - length q)%nat, drop n q,
     foldl (fun c f => AddSamples_sfloat f c) c (take n q)).
Proof.
  revert q c. induction n as [|n IH]; intros q c.
  - by destruct q.
  - destruct q as [|f q]; [done|]. cbn. by rewrite IH.
Qed.

Lemma ch_frames_foldl (fs : list AudioFrame) (c : MixerChannel) :
  ch_frames (foldl (fun c f => AddSamples_sfloat f c) c fs) = ch_frames c ++ fs.
Proof.
  revert c. induction fs as [|f fs IH]; intros c; cbn.
  - by rewrite app_nil_r.
  - rewrite IH. cbn. by rewrite <- app_assoc.
Qed.

(** The second loop on a device in working order: [n] renders whatever
    their readiness, and the ready frames at the sink in order. *)
Lemma render_remainder_ok (n : nat) s (c : MixerChannel) (d0 d1 : D) (r0 r1 : R) :
  channel s = Some c ->
  devices s = (Some d0, Some d1) ->
  resamplers s = (Some r0, Some r1) ->
  readiness_agrees r0 r1 ->
  exists s',
    render_remainder n s = Ok s'
    /\ devices s' = (Some (rendered n d0), Some (rendered n d1))
    /\ channel s' =
         Some (foldl (fun c f => AddSamples_sfloat f c) c (live_frames n d0 d1 r0 r1))
    /\ fifo s' = fifo s.
Proof.
  revert s c d0 d1 r0 r1. induction n as [|n IH]; intros s c d0 d1 r0 r1 Hc Hdev Hres Hag.
  - exists s. by cbn.
  - cbn [render_remainder live_frames].
    rewrite (MaybeRenderFrame_ok zero_frame s d0 d1 r0 r1 Hdev Hres Hag).
    set (u0 := sound_stream_update d0). set (u1 := sound_stream_update d1).
    set (l := input r0 _). set (r := input r1 _).
    pose proof (readiness_agrees_input r0 r1
      (to_int16 u0.2.1 + to_int16 u1.2.1) (to_int16 u0.2.2 + to_int16 u1.2.2) Hag)
      as Hag'.
    fold l r in Hag'. rewrite !rendered_S. fold u0 u1.
    rewrite foldl_app. cbn.
    destruct (l.1 && r.1); cbn; [rewrite Hc; cbn|].
    all: match goal with
         | |- context [render_remainder _ ?s1] =>
             first
               [ destruct (IH s1 _ u0.1 u1.1 l.2 r.2 eq_refl eq_refl eq_refl Hag')
                   as (s' & Hrun & Hd & Hch & Hf)
               | destruct (IH s1 c u0.1 u1.1 l.2 r.2 Hc eq_refl eq_refl Hag')
                   as (s' & Hrun & Hd & Hch & Hf) ]
         end.
    all: rewrite Hrun; exists s'; cbn in Hf, Hch; rewrite ?Hc in Hch; done.
Qed.

(** C2, as the code has it.  On a device in working order a request for
    [N] frames first hands the sink the oldest [N] queued frames in order
    (all of them when fewer are queued) and removes them from the queue;
    it then renders once for each of the [N - length (fifo s)] frames still
    wanted and hands the sink the frame of each render that found both
    resamplers ready, so that at most [N] frames arrive; a render that is
    not ready still uses up one wanted frame.  The render clock ends at
    [now]. *)
Theorem AudioCallback_drains_then_renders
    now (N : nat) s (c : MixerChannel) (d0 d1 : D) (r0 r1 : R) :
  channel s = Some c ->
  devices s = (Some d0, Some d1) ->
  resamplers s = (Some r0, Some r1) ->
  readiness_agrees r0 r1 ->
  let k := (N - length (fifo s))%nat in
  let live := live_frames k d0 d1 r0 r1 in
  exists s',
    AudioCallback now N s = Ok s'
    /\ sink_frames s' = sink_frames s ++ take N (fifo s) ++ live
    /\ fifo s' = drop N (fifo s)
    /\ devices s' = (Some (rendered k d0), Some (rendered k d1))
    /\ last_rendered_ms s' = now
    /\ (length (take N (fifo s) ++ live) <= N)%nat
    /\ delivered now N s = Ok (length (take N (fifo s) ++ live)).
Proof.
  intros Hc Hdev Hres Hag k live.
  assert (exists s', AudioCallback now N s = Ok s'
    /\ sink_frames s' = sink_frames s ++ take N (fifo s) ++ live
    /\ fifo s' = drop N (fifo s)
    /\ devices s' = (Some (rendered k d0), Some (rendered k d1))
    /\ last_rendered_ms s' = now) as (s' & Hrun & Hsink & Hfifo & Hd & Hclock).
  { unfold AudioCallback. rewrite Hc. cbn. rewrite drain_fifo_spec.
    destruct (render_remainder_ok k
      (set_fifo (drop N (fifo s))
         (set_channel
            (Some (foldl (fun c f => AddSamples_sfloat f c) c (take N (fifo s)))) s))
      (foldl (fun c f => AddSamples_sfloat f c) c (take N (fifo s)))
      d0 d1 r0 r1 eq_refl Hdev Hres Hag) as (s1 & Hrun & Hd & Hch & Hf).
    fold k. rewrite Hrun. cbn. eexists. split; [reflexivity|].
    unfold sink_frames. cbn. rewrite Hch, Hc. cbn.
    rewrite !ch_frames_foldl. fold live. rewrite <- app_assoc.
    repeat split; done. }
  exists s'. repeat split; try done.
  - rewrite length_app, length_take.
    pose proof (length_live_frames k d0 d1 r0 r1) as Hlive. fold live in Hlive.
    unfold k in *. lia.
  - unfold delivered. rewrite Hrun. cbn. rewrite Hsink.
    rewrite !length_app. f_equal. lia.
Qed.

(** ** The catch-up loop *)


Lemma fuel_zero (q : Q) : (inject_Z (Z.of_nat 0) * q == 0)%Q.
Proof. change (inject_Z (Z.of_nat 0)) with 0%Q. ring. Qed.

Lemma fuel_succ (n : nat) (q : Q) :
  (inject_Z (Z.of_nat (S n)) * q == inject_Z (Z.of_nat n) * q + q)%Q.
Proof. rewrite Nat2Z.inj_succ, <- Z.add_1_r, inject_Z_plus. ring. Qed.

(** The loop on a device in working order, with fuel for the distance to
    [now]: it ends, after some number [k] of iterations; each iteration
    rendered one sample and moved the clock by two [ms_per_render]. *)
Lemma render_loop_ok (fuel : nat) now s (d0 d1 : D) (r0 r1 : R) :
  devices s = (Some d0, Some d1) ->
  resamplers s = (Some r0, Some r1) ->
  readiness_agrees r0 r1 ->
  (0 < ms_per_render)%Q ->
  (now - last_rendered_ms s <= inject_Z (Z.of_nat fuel) * ms_per_render)%Q ->
  exists s' k,
    render_loop fuel now s = Ok s'
    /\ devices s' = (Some (rendered k d0), Some (rendered k d1))
    /\ resamplers s' =
         (Some (resampled k d0 d1 r0 r1).1, Some (resampled k d0 d1 r0 r1).2)
    /\ fifo s' = fifo s ++ live_frames k d0 d1 r0 r1
    /\ channel s' = channel s
    /\ (last_rendered_ms s' ==
        last_rendered_ms s + inject_Z (Z.of_nat k) * (ms_per_render + ms_per_render))%Q
    /\ (now <= last_rendered_ms s')%Q
    /\ (k = 0%nat \/ last_rendered_ms s' - (ms_per_render + ms_per_render) < now)%Q.
Proof.
  intros Hdev Hres Hag Hq. revert s d0 d1 r0 r1 Hdev Hres Hag.
  induction fuel as [|fuel IH]; intros s d0 d1 r0 r1 Hdev Hres Hag Hfuel.
  - exists s, 0%nat.
    assert (Qltb (last_rendered_ms s) now = false) as Hguard.
    { apply Qltb_ge. rewrite fuel_zero in Hfuel. lra. }
    cbn. rewrite Hguard, app_nil_r. repeat split; try done.
    + rewrite fuel_zero. lra.
    + by apply Qltb_ge.
    + by left.
  - cbn [render_loop]. destruct (Qltb (last_rendered_ms s) now) eqn:Hguard.
    + apply Qltb_lt in Hguard.
      rewrite (MaybeRenderFrame_ok zero_frame
        (set_last_rendered_ms (last_rendered_ms s + ms_per_render)%Q s)
        d0 d1 r0 r1 Hdev Hres Hag).
      set (u0 := sound_stream_update d0). set (u1 := sound_stream_update d1).
      set (l := input r0 _). set (r := input r1 _).
      pose proof (readiness_agrees_input r0 r1
        (to_int16 u0.2.1 + to_int16 u1.2.1) (to_int16 u0.2.2 + to_int16 u1.2.2) Hag)
        as Hag'.
      fold l r in Hag'. cbn.
      pose proof (fuel_succ fuel ms_per_render) as Hsucc.
      match goal with
      | |- context [render_loop fuel now ?s1] =>
          destruct (IH s1 u0.1 u1.1 l.2 r.2) as
            (s' & k & Hrun & Hd & Hr & Hf & Hch & Hclock & Hdone & Hlast);
            [ by destruct (l.1 && r.1) | by destruct (l.1 && r.1) | exact Hag'
            | destruct (l.1 && r.1); cbn; lra | ]
      end.
      exists s', (S k). rewrite Hrun. rewrite !rendered_S. fold u0 u1.
      cbn [resampled live_frames]. fold u0 u1 l r.
      pose proof (fuel_succ k (ms_per_render + ms_per_render)) as Hsucc'.
      repeat split; try done.
      * rewrite Hf. destruct (l.1 && r.1); cbn; [by rewrite <- app_assoc | done].
      * rewrite Hch. by destruct (l.1 && r.1).
      * rewrite Hclock, Hsucc'. destruct (l.1 && r.1); cbn; ring.
      * right. destruct Hlast as [-> | Hlast]; [|done].
        rewrite fuel_zero in Hclock. rewrite Hclock.
        destruct (l.1 && r.1); cbn; lra.
    + exists s, 0%nat. rewrite app_nil_r. repeat split; try done.
      * rewrite fuel_zero. lra.
      * by apply Qltb_ge.
      * by left.
Qed.

Lemma loop_bound_enough now s :
  (0 < ms_per_render)%Q ->
  (now - last_rendered_ms s <= inject_Z (Z.of_nat (loop_bound now s)) * ms_per_render)%Q.
Proof.
  intros Hq. unfold loop_bound.
  set (x := ((now - last_rendered_ms s) / ms_per_render)%Q).
  assert (now - last_rendered_ms s == x * ms_per_render)%Q as ->.
  { unfold x. field. lra. }
  apply Qmult_le_compat_r; [|lra].
  eapply Qle_trans; [apply Qle_ceiling|].
  rewrite <- Zle_Qle. lia.
Qed.

(** [RenderUpToNow] on a device in working order returns, caught up. *)
Lemma RenderUpToNow_ok now s (c : MixerChannel) (d0 d1 : D) (r0 r1 : R) :
  channel s = Some c ->
  devices s = (Some d0, Some d1) ->
  resamplers s = (Some r0, Some r1) ->
  readiness_agrees r0 r1 ->
  (0 < ms_per_render)%Q ->
  exists s' k,
    RenderUpToNow now s = Ok s'
    /\ devices s' = (Some (rendered k d0), Some (rendered k d1))
    /\ fifo s' = fifo s ++ live_frames k d0 d1 r0 r1
    /\ sink_frames s' = sink_frames s
    /\ (now <= last_rendered_ms s')%Q.
Proof.
  intros Hc Hdev Hres Hag Hq. unfold RenderUpToNow. rewrite Hc. cbn.
  destruct (WakeUp c) as [woke c'] eqn:HW.
  assert (ch_frames c' = ch_frames c) as Hframes.
  { unfold WakeUp in HW. by injection HW as _ <-. }
  destruct woke.
  - eexists _, 0%nat. split; [reflexivity|]. unfold sink_frames. cbn.
    rewrite Hc, app_nil_r. cbn. repeat split; try done. apply Qle_refl.
  - destruct (render_loop_ok (loop_bound now (set_channel (Some c') s)) now
                (set_channel (Some c') s) d0 d1 r0 r1 Hdev Hres Hag Hq)
      as (s' & k & Hrun & Hd & _ & Hf & Hch & _ & Hdone & _).
    { apply loop_bound_enough, Hq. }
    exists s', k. unfold sink_frames. rewrite Hch, Hc. cbn. done.
Qed.

(** A render that returns leaves both chips in place. *)
Lemma MaybeRenderFrame_devices (frame frame' : AudioFrame) (ready : bool) s s' :
  MaybeRenderFrame frame s = Ok (ready, frame', s') ->
  exists d0 d1, devices s' = (Some d0, Some d1).
Proof.
  unfold MaybeRenderFrame.
  destruct (devices s) as [[d0|] [d1|]]; cbn; try done;
    destruct (sound_stream_update d0) as [d0' [l0 q0]]; cbn; try done.
  destruct (sound_stream_update d1) as [d1' [l1 q1]]; cbn.
  destruct (resamplers s) as [[r0|] [r1|]]; cbn; try done;
    destruct (input r0 _) as [l_ready r0']; cbn; try done.
  destruct (input r1 _) as [r_ready r1']; cbn.
  case_bool_decide; cbn; [|done].
  intros [= _ _ <-]. cbn. eauto.
Qed.

Lemma render_loop_devices (fuel : nat) now s s' :
  render_loop fuel now s = Ok s' ->
  (exists d0 d1, devices s = (Some d0, Some d1)) ->
  exists d0 d1, devices s' = (Some d0, Some d1).
Proof.
  revert s. induction fuel as [|fuel IH]; intros s; cbn [render_loop].
  - case_match; [done|]. by intros [= <-].
  - case_match; [|by intros [= <-]].
    destruct (MaybeRenderFrame _ _) as [[[ready f] s1]|] eqn:Hframe; cbn; [|done].
    intros Hrun _. apply (IH _ Hrun).
    apply MaybeRenderFrame_devices in Hframe. by destruct ready.
Qed.

Lemma RenderUpToNow_devices now s s' :
  RenderUpToNow now s = Ok s' ->
  (exists d0 d1, devices s = (Some d0, Some d1)) ->
  exists d0 d1, devices s' = (Some d0, Some d1).
Proof.
  unfold RenderUpToNow. destruct (channel s) as [c|]; cbn; [|done].
  destruct (WakeUp c) as [[|] c'].
  - intros [= <-]. done.
  - intros Hrun Hdev. by apply (render_loop_devices _ _ _ _ Hrun).
Qed.

(** What one render does to the clock, and how it can fail. *)
Lemma MaybeRenderFrame_clock (frame frame' : AudioFrame) (ready : bool) s s' :
  MaybeRenderFrame frame s = Ok (ready, frame', s') ->
  last_rendered_ms s' = (last_rendered_ms s + ms_per_render)%Q.
Proof.
  unfold MaybeRenderFrame.
  destruct (devices s) as [[d0|] [d1|]]; cbn; try done;
    destruct (sound_stream_update d0) as [d0' [l0 q0]]; cbn; try done.
  destruct (sound_stream_update d1) as [d1' [l1 q1]]; cbn.
  destruct (resamplers s) as [[r0|] [r1|]]; cbn; try done;
    destruct (input r0 _) as [l_ready r0']; cbn; try done.
  destruct (input r1 _) as [r_ready r1']; cbn.
  case_bool_decide; cbn; [|done].
  by intros [= _ _ <-].
Qed.

Lemma MaybeRenderFrame_no_fuel (frame : AudioFrame) s :
  MaybeRenderFrame frame s <> Abort OutOfFuel.
Proof.
  unfold MaybeRenderFrame.
  destruct (devices s) as [[d0|] [d1|]]; cbn; try done;
    destruct (sound_stream_update d0) as [d0' [l0 q0]]; cbn; try done.
  destruct (sound_stream_update d1) as [d1' [l1 q1]]; cbn.
  destruct (resamplers s) as [[r0|] [r1|]]; cbn; try done;
    destruct (input r0 _) as [l_ready r0']; cbn; try done.
  destruct (input r1 _) as [r_ready r1']; cbn.
  case_bool_decide; cbn; done.
Qed.

(** With the clock an exact rational and [ms_per_render] positive, the
    loop never runs out of the fuel [RenderUpToNow] gives it.  (Nothing is
    said of binary64, where an increment can be absorbed by a large
    clock.) *)
Lemma render_loop_fuel (fuel : nat) now s :
  (0 < ms_per_render)%Q ->
  (now - last_rendered_ms s <= inject_Z (Z.of_nat fuel) * ms_per_render)%Q ->
  render_loop fuel now s <> Abort OutOfFuel.
Proof.
  intros Hq. revert s. induction fuel as [|fuel IH]; intros s Hfuel; cbn [render_loop].
  - destruct (Qltb (last_rendered_ms s) now) eqn:Hguard; [|done].
    apply Qltb_lt in Hguard. rewrite fuel_zero in Hfuel. lra.
  - destruct (Qltb (last_rendered_ms s) now) eqn:Hguard; [|done].
    destruct (MaybeRenderFrame _ _) as [[[ready f] s1]|e] eqn:Hframe; cbn.
    + apply IH. apply MaybeRenderFrame_clock in Hframe. cbn in Hframe.
      pose proof (fuel_succ fuel ms_per_render) as Hsucc.
      destruct ready; cbn; rewrite Hframe; lra.
    + intros [= ->]. by eapply MaybeRenderFrame_no_fuel.
Qed.

Lemma RenderUpToNow_ends now s :
  (0 < ms_per_render)%Q -> RenderUpToNow now s <> Abort OutOfFuel.
Proof.
  intros Hq. unfold RenderUpToNow.
  destruct (channel s) as [c|]; cbn; [|done].
  destruct (WakeUp c) as [[|] c']; [done|].
  apply render_loop_fuel; [done|].
  apply loop_bound_enough, Hq.
Qed.

(** The four write handlers on a device whose chips are in place: catch-up
    first, then the byte into the chip. *)
Lemma write_handlers_catch_up_first now (v : Z) s :
  (exists d0 d1, devices s = (Some d0, Some d1)) ->
  0 <= v <= 255 ->
  WriteDataToLeftDevice now v s =
    (g ← RenderUpToNow now s; Ok (on_left (fun d => data_w d v) g))
  /\ WriteControlToLeftDevice now v s =
    (g ← RenderUpToNow now s; Ok (on_left (fun d => control_w d v) g))
  /\ WriteDataToRightDevice now v s =
    (g ← RenderUpToNow now s; Ok (on_right (fun d => data_w d v) g))
  /\ WriteControlToRightDevice now v s =
    (g ← RenderUpToNow now s; Ok (on_right (fun d => control_w d v) g)).
Proof.
  intros Hdev Hv.
  unfold WriteDataToLeftDevice, WriteControlToLeftDevice,
    WriteDataToRightDevice, WriteControlToRightDevice, on_left, on_right.
  destruct (RenderUpToNow now s) as [g|] eqn:Hrun; cbn; [|done].
  destruct (RenderUpToNow_devices _ _ _ Hrun Hdev) as (d0 & d1 & Hg).
  rewrite (check_cast_uint8_byte v Hv), Hg. cbn. done.
Qed.

(** ** Port dispatch *)

Lemma lookup_insert_all {Hd : Type} (h : Hd) (l : list Z) (t : gmap Z Hd) (q : Z) :
  foldr (fun p t => <[p := h]> t) t l !! q =
    if bool_decide (q ∈ l) then Some h else t !! q.
Proof.
  induction l as [|p l IH]; cbn.
  - rewrite bool_decide_eq_false_2; [done|]. apply not_elem_of_nil.
  - destruct (decide (p = q)) as [->|Hne].
    + rewrite lookup_insert_eq, bool_decide_eq_true_2; [done|]. apply elem_of_cons. by left.
    + rewrite lookup_insert_ne by done. rewrite IH.
      apply (f_equal (fun b : bool => if b then Some h else t !! q)).
      apply bool_decide_ext. rewrite elem_of_cons.
      split; [by right | intros [?|?]; [congruence | done]].
Qed.

Lemma lookup_register_range {Hd : Type} (p n : Z) (h : Hd) (t : gmap Z Hd) (q : Z) :
  register_range p n h t !! q =
    if bool_decide (p <= q < p + n) then Some h else t !! q.
Proof.
  unfold register_range. rewrite lookup_insert_all.
  apply (f_equal (fun b : bool => if b then Some h else t !! q)).
  apply bool_decide_ext. apply elem_of_seqZ.
Qed.

(** ** Opening the device *)

Lemma Close_ok m :
  closable m ->
  exists mc, Close m = Ok mc /\ is_open (gameblaster mc) = false.
Proof.
  unfold closable, Close. intros Hch.
  destruct (is_open (gameblaster m)) eqn:Hopen; cbn.
  - specialize (Hch eq_refl).
    destruct (uninstall_all _ _) as [ws wt].
    destruct (Uninstall (write_handler_for_detection _) wt) as [wd wt'].
    destruct (Uninstall (read_handler_for_detection _) _) as [rd rt].
    destruct (channel (gameblaster m)) as [c|]; [|done]. cbn.
    eexists. split; [reflexivity|done].
  - exists m. done.
Qed.

Lemma valid_port_range (port : Z) (card_choice : string) :
  port ∈ valid_ports_for card_choice -> 0x210 <= port <= 0x300.
Proof.
  unfold valid_ports_for. intros Hport.
  case_bool_decide; list_cases Hport; subst; lia.
Qed.

(** [Open] on a machine whose device can be closed, at a port valid for
    the card: it returns, and this is what it leaves behind. *)
Lemma Open_ok (port_choice : Z) (card_choice filter_choice : string) m :
  closable m ->
  port_choice ∈ valid_ports_for card_choice ->
  exists m' ch r,
    Open port_choice card_choice filter_choice m = Ok m'
    /\ is_open (gameblaster m') = true
    /\ base_port (gameblaster m') = port_choice
    /\ devices (gameblaster m') =
         (Some (device_start chip_clock render_divisor),
          Some (device_start chip_clock render_divisor))
    /\ resamplers (gameblaster m') = (Some r, Some r)
    /\ (exists rate_in rate_out max_freq, r = create rate_in rate_out max_freq)
    /\ channel (gameblaster m') = Some ch
    /\ (io_write_handlers m' !! port_choice = Some data_to_left
        /\ io_write_handlers m' !! (port_choice + 1) = Some control_to_left
        /\ io_write_handlers m' !! (port_choice + 2) = Some data_to_right
        /\ io_write_handlers m' !! (port_choice + 3) = Some control_to_right)
    /\ (card_choice = "gb" ->
        (forall off, 0 <= off < 16 ->
           io_read_handlers m' !! (port_choice + off) = Some read_from_detection_port)
        /\ (forall off, 4 <= off < 16 ->
           io_write_handlers m' !! (port_choice + off) = Some write_to_detection_port))
    /\ (parse_bool_setting filter_choice = None ->
        (forall c, (TryParseAndSetCustomFilter filter_choice c).1 = false) ->
        ch_lowpass_order ch = 1
        /\ ch_lowpass_cutoff_hz ch = 6000
        /\ ch_lowpass_state ch = FilterOn
        /\ config m' !! ("sblaster", "cms_filter") = Some "on"
        /\ {| log_level := LogWarning;
              log_format := "CMS: Invalid 'cms_filter' setting: '%s', using 'on'";
              log_args := [ArgString filter_choice] |} ∈ log m').
Proof.
  intros Hm Hport. pose proof (valid_port_range _ _ Hport) as Hrange.
  destruct (Close_ok m Hm) as (mc & Hclose & Hclosed).
  assert (contains (valid_ports_for card_choice) port_choice = true) as Hcontains.
  { unfold contains. by apply bool_decide_eq_true_2. }
  unfold valid_ports_for in Hcontains.
  unfold Open. rewrite Hclose. cbn [mbind result_bind]. rewrite Hclosed. cbn [negb assert].
  unfold check_cast_io_port, in_uint16.
  replace (0 <=? port_choice) with true by (symmetry; apply Z.leb_le; lia).
  replace (port_choice <=? 65535) with true by (symmetry; apply Z.leb_le; lia).
  cbn [andb assert mbind result_bind].
  rewrite (Z.mod_small port_choice) by lia.
  rewrite Hcontains. cbn [assert mbind result_bind].
  unfold to_io_port. rewrite !Z.mod_small by lia. unfold Install.
  destruct (bool_decide (card_choice = "gb")) eqn:Hcard;
    (destruct (parse_bool_setting filter_choice) as [[|]|] eqn:Hparse;
     [ | | destruct (TryParseAndSetCustomFilter filter_choice _) as [[|] ch'] eqn:Htry ]);
    cbn -[register_range]; do 3 eexists; (split; [reflexivity|]);
    cbn -[register_range]; rewrite ?lookup_register_range;
    (repeat split; try done; try (eexists _, _, _; reflexivity)).
  all: try (rewrite ?bool_decide_eq_false_2 by lia;
            rewrite ?bool_decide_eq_true_2 by lia; reflexivity).
  all: try (intros off Hoff; rewrite ?lookup_register_range;
            rewrite ?bool_decide_eq_false_2 by lia;
            rewrite ?bool_decide_eq_true_2 by lia; reflexivity).
  all: try (apply bool_decide_eq_false in Hcard; intros; congruence).
  all: try match goal with
           | Hfail : forall c, (TryParseAndSetCustomFilter _ c).1 = false |- _ =>
               specialize (Hfail (MIXER_AddChannel (mixer_rate_for use_mixer_rate) "CMS"
                 [Sleep; Stereo; ReverbSend; ChorusSend; Synthesizer]));
               rewrite Htry in Hfail; discriminate
           end.
  all: try (unfold set_section_property_value; apply lookup_insert_eq).
  all: unfold log_call; apply elem_of_app; left; apply elem_of_app; right;
    apply elem_of_cons; by left.
Qed.

Lemma Close_closed m mc : Close m = Ok mc -> is_open (gameblaster mc) = false.
Proof.
  unfold Close. destruct (is_open (gameblaster m)) eqn:Hopen; cbn.
  - destruct (uninstall_all _ _) as [ws wt].
    destruct (Uninstall (write_handler_for_detection _) wt) as [wd wt'].
    destruct (Uninstall (read_handler_for_detection _) _) as [rd rt].
    destruct (channel (gameblaster m)) as [c|]; cbn; [|done].
    by intros [= <-].
  - by intros [= <-].
Qed.

Lemma Close_aborts m f : Close m = Abort f -> f = AssertionFailed "channel".
Proof.
  unfold Close. destruct (is_open (gameblaster m)) eqn:Hopen; cbn; [|done].
  destruct (uninstall_all _ _) as [ws wt].
  destruct (Uninstall (write_handler_for_detection _) wt) as [wd wt'].
  destruct (Uninstall (read_handler_for_detection _) _) as [rd rt].
  destruct (channel (gameblaster m)) as [c|]; cbn; [done|].
  by intros [= <-].
Qed.

(** C8. When the filter setting is neither a boolean word nor a custom
    filter the channel can parse, [Open] still succeeds: the channel gets
    the first-order 6000 Hz low-pass filter, switched on; a warning is
    logged; and the stored [cms_filter] of section [sblaster] becomes
    the word on. *)
Theorem Open_falls_back_to_default_filter
    (port_choice : Z) (card_choice filter_choice : string) m :
  closable m ->
  port_choice ∈ valid_ports_for card_choice ->
  parse_bool_setting filter_choice = None ->
  (forall c, (TryParseAndSetCustomFilter filter_choice c).1 = false) ->
  exists m' ch,
    Open port_choice card_choice filter_choice m = Ok m'
    /\ channel (gameblaster m') = Some ch
    /\ ch_lowpass_order ch = 1
    /\ ch_lowpass_cutoff_hz ch = 6000
    /\ ch_lowpass_state ch = FilterOn
    /\ {| log_level := LogWarning;
          log_format := "CMS: Invalid 'cms_filter' setting: '%s', using 'on'";
          log_args := [ArgString filter_choice] |} ∈ log m'
    /\ config m' !! ("sblaster", "cms_filter") = Some "on".
Proof.
  intros Hm Hport Hparse Hcustom.
  destruct (Open_ok port_choice card_choice filter_choice m Hm Hport)
    as (m' & ch & r & Hopen & _ & _ & _ & _ & _ & Hch & _ & _ & Hfilter).
  destruct (Hfilter Hparse Hcustom) as (Ho & Hc & Hs & Hcfg & Hlog).
  exists m', ch. done.
Qed.

(** C9. [Open] does not get past its assertions when the port is outside
    the list for the card: 0x210 to 0x260 in steps of 0x10 for card gb,
    0x220 to 0x300 in steps of 0x20 for any other card.  On a machine whose
    device can be closed, with a port that fits [io_port_t], the assertion
    that fails is the one on the port list; so for a card other than gb at
    port 0x210. *)
Theorem Open_rejects_invalid_port
    (port_choice : Z) (card_choice filter_choice : string) m :
  port_choice ∉ valid_ports_for card_choice ->
  valid_ports_for "gb" = [0x210; 0x220; 0x230; 0x240; 0x250; 0x260]
  /\ (card_choice <> "gb" ->
      valid_ports_for card_choice = [0x220; 0x240; 0x260; 0x280; 0x2a0; 0x2c0; 0x2e0; 0x300])
  /\ (exists e, Open port_choice card_choice filter_choice m = Abort (AssertionFailed e))
  /\ (closable m -> 0 <= port_choice <= 65535 ->
      Open port_choice card_choice filter_choice m =
        Abort (AssertionFailed "contains(valid_ports, base_port)"))
  /\ (closable m -> card_choice <> "gb" ->
      Open 0x210 card_choice filter_choice m =
        Abort (AssertionFailed "contains(valid_ports, base_port)")).
Proof.
  intros Hport.
  assert (forall p, p ∉ valid_ports_for card_choice ->
            contains (if bool_decide (card_choice = "gb")
                      then valid_gb_ports else valid_cms_ports) p = false)
    as Hcontains.
  { intros p Hp. unfold contains. by apply bool_decide_eq_false_2. }
  assert (forall p mc, p ∉ valid_ports_for card_choice -> 0 <= p <= 65535 ->
            Close m = Ok mc ->
            Open p card_choice filter_choice m =
              Abort (AssertionFailed "contains(valid_ports, base_port)")) as Hlist.
  { intros p mc Hp Hfits Hclose. unfold Open. rewrite Hclose. cbn [mbind result_bind].
    rewrite (Close_closed _ _ Hclose). cbn [negb assert].
    unfold check_cast_io_port, in_uint16.
    replace (0 <=? p) with true by (symmetry; apply Z.leb_le; lia).
    replace (p <=? 65535) with true by (symmetry; apply Z.leb_le; lia).
    cbn [andb assert mbind result_bind].
    rewrite (Z.mod_small p) by lia. by rewrite (Hcontains p Hp). }
  split; [done|]. split.
  { intros Hcard. unfold valid_ports_for. by rewrite bool_decide_eq_false_2. }
  split; [|split].
  - destruct (Close m) as [mc|f] eqn:Hclose.
    + destruct (decide (0 <= port_choice <= 65535)) as [Hfits|Hbig].
      * eexists. by eapply Hlist.
      * exists "check_cast<io_port_t>". unfold Open. rewrite Hclose.
        cbn [mbind result_bind]. rewrite (Close_closed _ _ Hclose). cbn [negb assert].
        unfold check_cast_io_port, in_uint16.
        destruct (0 <=? port_choice) eqn:Hlo; [|done].
        destruct (port_choice <=? 65535) eqn:Hhi; [|done].
        apply Z.leb_le in Hlo, Hhi. lia.
    + pose proof (Close_aborts _ _ Hclose) as ->.
      eexists. unfold Open. by rewrite Hclose.
  - intros Hm Hfits. destruct (Close_ok m Hm) as (mc & Hclose & _). by eapply Hlist.
  - intros Hm Hcard. destruct (Close_ok m Hm) as (mc & Hclose & _).
    apply (Hlist 0x210 mc); [|lia|done].
    unfold valid_ports_for. rewrite bool_decide_eq_false_2 by done.
    intros Hin. list_cases Hin; discriminate.
Qed.

(** C10. On a Game Blaster the detection read handler is bound to all 16
    ports from the base port on, so a byte read at base+0 to base+3, the
    chip ports, is answered by it, with 0xFF. *)
Theorem detection_reads_cover_chip_ports
    (port_choice : Z) (filter_choice : string) m :
  closable m ->
  port_choice ∈ valid_gb_ports ->
  exists m',
    Open port_choice "gb" filter_choice m = Ok m'
    /\ (forall off, 0 <= off < 16 ->
          io_read_handlers m' !! (port_choice + off) = Some read_from_detection_port)
    /\ (forall off, 0 <= off <= 3 -> IO_ReadB (port_choice + off) m' = Some 0xff).
Proof.
  intros Hm Hport.
  destruct (Open_ok port_choice "gb" filter_choice m Hm Hport)
    as (m' & ch & r & Hopen & _ & Hbase & _ & _ & _ & _ & _ & Hdetect & _).
  destruct (Hdetect eq_refl) as [Hread _].
  exists m'. repeat split; try done.
  intros off Hoff. unfold IO_ReadB. rewrite Hread by lia.
  unfold ReadFromDetectionPort. rewrite Hbase.
  rewrite !bool_decide_eq_false_2 by lia. done.
Qed.

(** ** The render clock during catch-up *)

(** One pass of the loop suffices when [now] is less than one
    [ms_per_render] ahead: a single sample is rendered, and the clock has
    moved by two [ms_per_render], past [now] by more than one. *)
Lemma catch_up_overshoots now s (c : MixerChannel) (d0 d1 : D) (r0 r1 : R) :
  channel s = Some c ->
  (WakeUp c).1 = false ->
  devices s = (Some d0, Some d1) ->
  resamplers s = (Some r0, Some r1) ->
  readiness_agrees r0 r1 ->
  (0 < ms_per_render)%Q ->
  (last_rendered_ms s < now)%Q ->
  (now < last_rendered_ms s + ms_per_render)%Q ->
  exists s',
    RenderUpToNow now s = Ok s'
    /\ devices s' = (Some (rendered 1 d0), Some (rendered 1 d1))
    /\ (last_rendered_ms s' == last_rendered_ms s + 2 * ms_per_render)%Q
    /\ (now + ms_per_render < last_rendered_ms s')%Q.
Proof.
  intros Hc Hawake Hdev Hres Hag Hq Hbehind Hnear.
  unfold RenderUpToNow. rewrite Hc. cbn.
  pose proof (WakeUp_awake c Hawake) as Hsame.
  destruct (WakeUp c) as [woke c']. cbn in Hawake, Hsame. subst woke c'.
  rewrite (set_channel_same s c Hc).
  pose proof (loop_bound_enough now s Hq) as Hfuel.
  destruct (loop_bound now s) as [|fuel].
  { rewrite fuel_zero in Hfuel. lra. }
  cbn [render_loop].
  rewrite (proj2 (Qltb_lt _ _) Hbehind).
  rewrite (MaybeRenderFrame_ok zero_frame
    (set_last_rendered_ms (last_rendered_ms s + ms_per_render)%Q s)
    d0 d1 r0 r1 Hdev Hres Hag).
  set (u0 := sound_stream_update d0). set (u1 := sound_stream_update d1).
  set (l := input r0 _). set (r := input r1 _). cbn.
  match goal with
  | |- context [render_loop fuel now ?s1] =>
      assert (render_loop fuel now s1 = Ok s1) as ->
  end.
  { assert (forall s1 : GameBlaster D R,
              (now <= last_rendered_ms s1)%Q -> render_loop fuel now s1 = Ok s1) as Hstop.
    { intros s1 Hs1. apply Qltb_ge in Hs1. destruct fuel; cbn; by rewrite Hs1. }
    apply Hstop. destruct (l.1 && r.1); cbn; lra. }
  eexists. split; [reflexivity|].
  destruct (l.1 && r.1); cbn; (split; [done | split; [ring | lra]]).
Qed.

(** * Further properties of the device *)

(** ** Catch-up: termination, postcondition, repetition *)

Lemma MaybeRenderFrame_channel (frame frame' : AudioFrame) (ready : bool) s s' :
  MaybeRenderFrame frame s = Ok (ready, frame', s') ->
  channel s' = channel s /\ fifo s' = fifo s.
Proof.
  unfold MaybeRenderFrame.
  destruct (devices s) as [[d0|] [d1|]]; cbn; try done;
    destruct (sound_stream_update d0) as [d0' [l0 q0]]; cbn; try done.
  destruct (sound_stream_update d1) as [d1' [l1 q1]]; cbn.
  destruct (resamplers s) as [[r0|] [r1|]]; cbn; try done;
    destruct (input r0 _) as [l_ready r0']; cbn; try done.
  destruct (input r1 _) as [r_ready r1']; cbn.
  case_bool_decide; cbn; [|done].
  by intros [= _ _ <-].
Qed.

Lemma render_loop_post (fuel : nat) now s s' :
  render_loop fuel now s = Ok s' ->
  (now <= last_rendered_ms s')%Q /\ channel s' = channel s.
Proof.
  revert s. induction fuel as [|fuel IH]; intros s; cbn [render_loop].
  - destruct (Qltb (last_rendered_ms s) now) eqn:Hguard; [done|].
    intros [= <-]. split; [by apply Qltb_ge | done].
  - destruct (Qltb (last_rendered_ms s) now) eqn:Hguard.
    + destruct (MaybeRenderFrame _ _) as [[[ready f] s1]|e] eqn:Hframe; cbn; [|done].
      intros Hrun. destruct (IH _ Hrun) as [Hdone Hch]. split; [done|].
      rewrite Hch. apply MaybeRenderFrame_channel in Hframe as [Hc _].
      destruct ready; cbn; by rewrite Hc.
    + intros [= <-]. split; [by apply Qltb_ge | done].
Qed.

Lemma WakeUp_enabled (c : MixerChannel) : ch_enabled (WakeUp c).2 = true.
Proof. reflexivity. Qed.

Lemma WakeUp_of_enabled (c : MixerChannel) :
  ch_enabled c = true -> (WakeUp c).1 = false.
Proof. unfold WakeUp. cbn. by intros ->. Qed.

(** A device whose channel is awake and whose clock has reached [now] is
    returned as it is. *)
Lemma RenderUpToNow_current now s (c : MixerChannel) :
  channel s = Some c ->
  ch_enabled c = true ->
  (now <= last_rendered_ms s)%Q ->
  RenderUpToNow now s = Ok s.
Proof.
  intros Hc Hen Hnow. unfold RenderUpToNow. rewrite Hc. cbn.
  pose proof (WakeUp_of_enabled c Hen) as Hawake.
  pose proof (WakeUp_awake c Hawake) as Hsame.
  destruct (WakeUp c) as [woke c']. cbn in Hawake, Hsame. subst woke c'.
  rewrite (set_channel_same s c Hc).
  apply Qltb_ge in Hnow. destruct (loop_bound now s); cbn; by rewrite Hnow.
Qed.

(** X1. Whenever [RenderUpToNow] returns, by the wake branch or by the
    loop, the render clock is not behind [now] and the channel is awake. *)
Theorem RenderUpToNow_returns_caught_up now s s' :
  RenderUpToNow now s = Ok s' ->
  (now <= last_rendered_ms s')%Q
  /\ exists c, channel s' = Some c /\ ch_enabled c = true.
Proof.
  unfold RenderUpToNow.
  destruct (channel s) as [c|]; cbn; [|done].
  pose proof (WakeUp_enabled c) as Hen.
  destruct (WakeUp c) as [[|] c']; cbn in Hen.
  - intros [= <-]. cbn. split; [apply Qle_refl | eauto].
  - intros Hrun. apply render_loop_post in Hrun as [Hdone Hch].
    split; [done|]. rewrite Hch. cbn. eauto.
Qed.

(** X2. Catch-up is idempotent: once [RenderUpToNow] has returned a
    device, running it again for the same [now] returns that device
    unchanged, rendering nothing. *)
Theorem RenderUpToNow_idempotent now s s1 :
  RenderUpToNow now s = Ok s1 ->
  RenderUpToNow now s1 = Ok s1.
Proof.
  intros Hrun.
  assert ((now <= last_rendered_ms s1)%Q
          /\ exists c, channel s1 = Some c /\ ch_enabled c = true)
    as (Hdone & c & Hc & Hen).
  { revert Hrun. unfold RenderUpToNow.
    destruct (channel s) as [c|]; cbn; [|done].
    pose proof (WakeUp_enabled c) as Hen.
    destruct (WakeUp c) as [[|] c']; cbn in Hen.
    - intros [= <-]. cbn. split; [apply Qle_refl | eauto].
    - intros Hrun. apply render_loop_post in Hrun as [Hdone Hch].
      split; [done|]. rewrite Hch. cbn. eauto. }
  by eapply RenderUpToNow_current.
Qed.

(** What a chip-port write that returned has left behind. *)
Lemma write_handler_post now (v : Z) s s1 :
  (exists d0 d1, devices s = (Some d0, Some d1)) ->
  WriteDataToLeftDevice now v s = Ok s1
  \/ WriteControlToLeftDevice now v s = Ok s1
  \/ WriteDataToRightDevice now v s = Ok s1
  \/ WriteControlToRightDevice now v s = Ok s1 ->
  (now <= last_rendered_ms s1)%Q
  /\ (exists c, channel s1 = Some c /\ ch_enabled c = true)
  /\ (exists d0 d1, devices s1 = (Some d0, Some d1)).
Proof.
  intros Hchips.
  unfold WriteDataToLeftDevice, WriteControlToLeftDevice,
    WriteDataToRightDevice, WriteControlToRightDevice.
  destruct (RenderUpToNow now s) as [g|] eqn:Hrun; cbn;
    [|intros [?|[?|[?|?]]]; done].
  destruct (RenderUpToNow_devices _ _ _ Hrun Hchips) as (d0 & d1 & Hg).
  assert ((now <= last_rendered_ms g)%Q
          /\ exists c, channel g = Some c /\ ch_enabled c = true)
    as (Hdone & c & Hc & Hen).
  { revert Hrun. unfold RenderUpToNow.
    destruct (channel s) as [c|]; cbn; [|done].
    pose proof (WakeUp_enabled c) as Hen.
    destruct (WakeUp c) as [[|] c']; cbn in Hen.
    - intros [= <-]. cbn. split; [apply Qle_refl | eauto].
    - intros Hrun. apply render_loop_post in Hrun as [Hdone Hch].
      split; [done|]. rewrite Hch. cbn. eauto. }
  destruct (check_cast_uint8 v) as [b|]; cbn; [|intros [?|[?|[?|?]]]; done].
  rewrite Hg. cbn.
  intros [H1|[H1|[H1|H1]]]; injection H1 as <-; cbn; eauto 10.
Qed.


(** ** The mixer callback and the queue *)

(** X4. When the queue holds at least the [N] frames asked for, the
    callback needs nothing but the channel: it hands the sink exactly the
    [N] oldest queued frames in order, keeps the rest queued, renders
    nothing (chips and resamplers are untouched, and need not even exist)
    and sets the render clock to [now]. *)
Theorem AudioCallback_served_from_queue now (N : nat) s (c : MixerChannel) :
  channel s = Some c ->
  (N <= length (fifo s))%nat ->
  exists s',
    AudioCallback now N s = Ok s'
    /\ sink_frames s' = sink_frames s ++ take N (fifo s)
    /\ fifo s' = drop N (fifo s)
    /\ devices s' = devices s
    /\ resamplers s' = resamplers s
    /\ last_rendered_ms s' = now
    /\ delivered now N s = Ok N.
Proof.
  intros Hc HN.
  assert (exists s', AudioCallback now N s = Ok s'
    /\ sink_frames s' = sink_frames s ++ take N (fifo s)
    /\ fifo s' = drop N (fifo s)
    /\ devices s' = devices s
    /\ resamplers s' = resamplers s
    /\ last_rendered_ms s' = now) as (s' & Hrun & Hsink & Hrest).
  { unfold AudioCallback. rewrite Hc. cbn. rewrite drain_fifo_spec.
    replace (N - length (fifo s))%nat with 0%nat by lia. cbn.
    eexists. split; [reflexivity|]. unfold sink_frames. cbn.
    rewrite Hc. cbn. rewrite ch_frames_foldl. done. }
  exists s'. split; [done|]. split; [done|].
  destruct Hrest as (? & ? & ? & ?). repeat (split; [done|]).
  unfold delivered. rewrite Hrun. cbn. rewrite Hsink, length_app, length_take.
  f_equal. lia.
Qed.

Lemma rendered_add (k j : nat) (d : D) :
  rendered (k + j) d = rendered j (rendered k d).
Proof.
  revert d. induction k as [|k IH]; intros d; [done|].
  change (S k + j)%nat with (S (k + j)). by rewrite !rendered_S, IH.
Qed.





Lemma render_remainder_channel (n : nat) s s' :
  render_remainder n s = Ok s' ->
  is_Some (channel s) -> is_Some (channel s').
Proof.
  revert s. induction n as [|n IH]; intros s; cbn [render_remainder].
  - by intros [= <-].
  - destruct (MaybeRenderFrame _ _) as [[[ready f] s1]|e] eqn:Hframe; cbn; [|done].
    apply MaybeRenderFrame_channel in Hframe as [Hch _].
    destruct ready.
    + destruct (channel s1) as [c1|]; cbn; [|done].
      intros Hrun _. apply (IH _ Hrun). cbn. eauto.
    + cbn. intros Hrun Hsome. apply (IH _ Hrun). by rewrite Hch.
Qed.

(** X6. The callback settles the backlog: right after a callback that
    returned, a catch-up for the same [now] renders nothing; chips,
    resamplers, queue and the frames at the sink stay as the callback left
    them and the render clock stays at [now]. *)
Theorem callback_leaves_nothing_to_catch_up now (N : nat) s s1 :
  AudioCallback now N s = Ok s1 ->
  exists s2,
    RenderUpToNow now s1 = Ok s2
    /\ devices s2 = devices s1
    /\ resamplers s2 = resamplers s1
    /\ fifo s2 = fifo s1
    /\ sink_frames s2 = sink_frames s1
    /\ last_rendered_ms s2 = now.
Proof.
  intros Hcall.
  assert (last_rendered_ms s1 = now /\ is_Some (channel s1)) as [Hclock [c Hc]].
  { revert Hcall. unfold AudioCallback.
    destruct (channel s) as [c|]; cbn; [|done].
    destruct (drain_fifo N (fifo s) c) as [[n q] c'].
    destruct (render_remainder n _) as [s0|] eqn:Hrest; cbn; [|done].
    intros [= <-]. cbn. split; [done|].
    apply (render_remainder_channel _ _ _ Hrest). cbn. eauto. }
  unfold RenderUpToNow. rewrite Hc. cbn.
  destruct (WakeUp c) as [woke c'] eqn:HW.
  assert (ch_frames c' = ch_frames c) as Hframes.
  { unfold WakeUp in HW. by injection HW as _ <-. }
  destruct woke.
  - eexists. split; [reflexivity|]. unfold sink_frames. cbn. rewrite Hc. done.
  - assert (Qltb (last_rendered_ms (set_channel (Some c') s1)) now = false) as Hguard.
    { apply Qltb_ge. cbn. rewrite Hclock. apply Qle_refl. }
    exists (set_channel (Some c') s1). split.
    + destruct (loop_bound now _); cbn [render_loop]; by rewrite Hguard.
    + unfold sink_frames. cbn. rewrite Hc. done.
Qed.

(** ** The detection chip behind the port table *)

(** X7. Round trip through the ports of a Game Blaster: after [Open] with
    card gb, a byte written by the guest at base+6 or base+7 is what the
    guest reads at base+0xA and base+0xB, and base+4 still reads 0x7F. *)
Theorem detection_round_trip_through_ports
    (port_choice : Z) (filter_choice : string) m now (v off_w off_r : Z) :
  closable m ->
  port_choice ∈ valid_gb_ports ->
  0 <= v <= 255 ->
  off_w ∈ [0x6; 0x7] ->
  off_r ∈ [0xa; 0xb] ->
  exists m' m'',
    Open port_choice "gb" filter_choice m = Ok m'
    /\ IO_WriteB now (port_choice + off_w) v m' = Ok m''
    /\ IO_ReadB (port_choice + off_r) m'' = Some v
    /\ IO_ReadB (port_choice + 0x4) m'' = Some 0x7f.
Proof.
  intros Hm Hport Hv Hw Hr.
  destruct (Open_ok port_choice "gb" filter_choice m Hm Hport)
    as (m' & ch & r & Hopen & _ & Hbase & _ & _ & _ & _ & _ & Hdetect & _).
  destruct (Hdetect eq_refl) as [Hread Hwrite].
  exists m'. eexists. split; [done|].
  assert (4 <= off_w < 16 /\ 0 <= off_r < 16) as [Hw' Hr'].
  { list_cases Hw; list_cases Hr; subst; lia. }
  unfold IO_WriteB. rewrite (Hwrite off_w Hw').
  unfold WriteToDetectionPort. rewrite Hbase.
  replace (port_choice + off_w - port_choice) with off_w by lia.
  assert (bool_decide (off_w = 6) || bool_decide (off_w = 7) = true) as ->.
  { list_cases Hw; subst; done. }
  rewrite (check_cast_uint8_byte v Hv). cbn. split; [reflexivity|].
  unfold IO_ReadB. cbn. rewrite (Hread off_r Hr'), (Hread 4) by lia.
  unfold ReadFromDetectionPort. cbn. rewrite Hbase.
  replace (port_choice + off_r - port_choice) with off_r by lia.
  replace (port_choice + 4 - port_choice) with 4 by lia.
  list_cases Hr; subst; done.
Qed.


(** ** Opening, closing and reopening *)

Lemma lookup_delete_all {Hd : Type} (l : list Z) (t : gmap Z Hd) (q : Z) :
  foldr (fun p t => delete p t) t l !! q =
    if bool_decide (q ∈ l) then None else t !! q.
Proof.
  induction l as [|p l IH]; cbn.
  - rewrite bool_decide_eq_false_2; [done|]. apply not_elem_of_nil.
  - destruct (decide (p = q)) as [->|Hne].
    + rewrite lookup_delete_eq, bool_decide_eq_true_2; [done|]. apply elem_of_cons. by left.
    + rewrite lookup_delete_ne by done. rewrite IH.
      apply (f_equal (fun b : bool => if b then None else t !! q)).
      apply bool_decide_ext. rewrite elem_of_cons.
      split; [by right | intros [?|?]; [congruence | done]].
Qed.

Lemma lookup_free_range {Hd : Type} (p n : Z) (t : gmap Z Hd) (q : Z) :
  free_range p n t !! q = if bool_decide (p <= q < p + n) then None else t !! q.
Proof.
  unfold free_range. rewrite lookup_delete_all.
  apply (f_equal (fun b : bool => if b then None else t !! q)).
  apply bool_decide_ext. apply elem_of_seqZ.
Qed.

Lemma Close_not_open m : is_open (gameblaster m) = false -> Close m = Ok m.
Proof. unfold Close. by intros ->. Qed.

(** What [Close] keeps of a machine it can close. *)
Lemma Close_keeps m :
  closable m ->
  exists mc,
    Close m = Ok mc
    /\ is_open (gameblaster mc) = false
    /\ fifo (gameblaster mc) = fifo (gameblaster m)
    /\ last_rendered_ms (gameblaster mc) = last_rendered_ms (gameblaster m)
    /\ cms_detect_register (gameblaster mc) = cms_detect_register (gameblaster m)
    /\ config mc = config m
    /\ (forall e, e ∈ log mc -> log_level e = LogWarning -> e ∈ log m).
Proof.
  unfold closable, Close. intros Hch.
  destruct (is_open (gameblaster m)) eqn:Hopen; cbn.
  - specialize (Hch eq_refl).
    destruct (uninstall_all _ _) as [ws wt].
    destruct (Uninstall (write_handler_for_detection _) wt) as [wd wt'].
    destruct (Uninstall (read_handler_for_detection _) _) as [rd rt].
    destruct (channel (gameblaster m)) as [c|]; [|done]. cbn.
    eexists. split; [reflexivity|]. cbn. repeat (split; [done|]).
    intros e He Hlevel. unfold log_call in He.
    apply elem_of_app in He as [He|He]; [done|].
    apply list_elem_of_singleton in He. subst e. discriminate.
  - exists m. rewrite Hopen. done.
Qed.

(** The steps of [Open] up to the port assertion, on a machine that
    [Close] returned as [mc]. *)
Ltac run_Open Hclose Hclosed Hcontains :=
  unfold Open; rewrite Hclose; cbn [mbind result_bind];
  rewrite Hclosed; cbn [negb assert];
  unfold check_cast_io_port, in_uint16;
  repeat match goal with
         | |- context [Z.leb ?a ?b] =>
             replace (Z.leb a b) with true by (symmetry; apply Z.leb_le; lia)
         end;
  cbn [andb assert mbind result_bind];
  rewrite Z.mod_small by lia;
  rewrite Hcontains; cbn [assert mbind result_bind];
  unfold to_io_port; rewrite !Z.mod_small by lia; unfold Install.

Lemma valid_port_contains (port : Z) (card_choice : string) :
  port ∈ valid_ports_for card_choice ->
  contains (if bool_decide (card_choice = "gb")
            then valid_gb_ports else valid_cms_ports) port = true.
Proof. intros Hport. unfold contains. by apply bool_decide_eq_true_2. Qed.


(** The port tables after [Open] on a machine whose device is not open. *)
Lemma Open_tables_at_rest
    (port_choice : Z) (card_choice filter_choice : string) m :
  is_open (gameblaster m) = false ->
  port_choice ∈ valid_ports_for card_choice ->
  exists m',
    Open port_choice card_choice filter_choice m = Ok m'
    /\ (forall q, ~ (port_choice <= q < port_choice + 16) ->
          io_write_handlers m' !! q = io_write_handlers m !! q
          /\ io_read_handlers m' !! q = io_read_handlers m !! q)
    /\ (card_choice <> "gb" ->
          io_read_handlers m' = io_read_handlers m
          /\ forall q, ~ (port_choice <= q < port_choice + 4) ->
               io_write_handlers m' !! q = io_write_handlers m !! q).
Proof.
  intros Hclosed Hport. pose proof (valid_port_range _ _ Hport) as Hrange.
  pose proof (Close_not_open m Hclosed) as Hclose.
  pose proof (valid_port_contains _ _ Hport) as Hcontains.
  run_Open Hclose Hclosed Hcontains.
  destruct (bool_decide (card_choice = "gb")) eqn:Hcard;
    (destruct (parse_bool_setting filter_choice) as [[|]|] eqn:Hparse;
     [ | | destruct (TryParseAndSetCustomFilter filter_choice _) as [[|] ch'] eqn:Htry ]);
    cbn -[register_range]; eexists; (split; [reflexivity|]);
    cbn -[register_range]; split.
  all: try (intros q Hq; rewrite ?lookup_register_range;
            rewrite ?bool_decide_eq_false_2 by lia; done).
  all: try (apply bool_decide_eq_true in Hcard; intros Hne; congruence).
  all: intros _; split; [reflexivity|];
    intros q Hq; rewrite ?lookup_register_range;
    rewrite ?bool_decide_eq_false_2 by lia; done.
Qed.

(** X10. [Open] binds its own ports and no others.  On a machine whose
    device is not open, whatever the card, every port outside base+0 to
    base+15 keeps the read and write handlers it had; for a card other
    than gb the read table is not touched at all and only the four chip
    ports base+0 to base+3 get a write handler. *)
Theorem Open_binds_only_its_ports
    (port_choice : Z) (card_choice filter_choice : string) m :
  is_open (gameblaster m) = false ->
  port_choice ∈ valid_ports_for card_choice ->
  exists m',
    Open port_choice card_choice filter_choice m = Ok m'
    /\ (forall q, ~ (port_choice <= q < port_choice + 16) ->
          io_write_handlers m' !! q = io_write_handlers m !! q
          /\ io_read_handlers m' !! q = io_read_handlers m !! q)
    /\ (card_choice <> "gb" ->
          io_read_handlers m' = io_read_handlers m
          /\ forall q, ~ (port_choice <= q < port_choice + 4) ->
               io_write_handlers m' !! q = io_write_handlers m !! q).
Proof.
  intros Hclosed Hport.
  destruct (Open_tables_at_rest port_choice card_choice filter_choice m Hclosed Hport)
    as (m' & Hopen & Houtside & Hother).
  exists m'. split; [exact Hopen|]. split; [exact Houtside|].
  intros Hcard. destruct (Hother Hcard) as [Hread Hwrite].
  split; [exact Hread | exact Hwrite].
Qed.

(** [Open] and then [Close] on a machine at rest: what is left. *)
Lemma Open_Close_at_rest
    (port_choice : Z) (card_choice filter_choice : string) m now (v : Z) :
  is_open (gameblaster m) = false ->
  installed (write_handler_for_detection (gameblaster m)) = false ->
  installed (read_handler_for_detection (gameblaster m)) = false ->
  port_choice ∈ valid_ports_for card_choice ->
  exists m1 m2,
    Open port_choice card_choice filter_choice m = Ok m1
    /\ Close m1 = Ok m2
    /\ is_open (gameblaster m2) = false
    /\ devices (gameblaster m2) = (None, None)
    /\ resamplers (gameblaster m2) = (None, None)
    /\ channel (gameblaster m2) = None
    /\ (forall q, port_choice <= q < port_choice + 4 ->
          io_write_handlers m2 !! q = None
          /\ IO_WriteB now q v m2 = Ok m2)
    /\ (card_choice = "gb" ->
          forall q, port_choice <= q < port_choice + 16 ->
            io_write_handlers m2 !! q = None /\ io_read_handlers m2 !! q = None)
    /\ (forall q, ~ (port_choice <= q < port_choice + 16) ->
          io_write_handlers m2 !! q = io_write_handlers m !! q
          /\ io_read_handlers m2 !! q = io_read_handlers m !! q)
    /\ Close m2 = Ok m2.
Proof.
  intros Hclosed Hwd Hrd Hport. pose proof (valid_port_range _ _ Hport) as Hrange.
  pose proof (Close_not_open m Hclosed) as Hclose.
  pose proof (valid_port_contains _ _ Hport) as Hcontains.
  run_Open Hclose Hclosed Hcontains.
  destruct (bool_decide (card_choice = "gb")) eqn:Hcard;
    (destruct (parse_bool_setting filter_choice) as [[|]|] eqn:Hparse;
     [ | | destruct (TryParseAndSetCustomFilter filter_choice _) as [[|] ch'] eqn:Htry ]);
    cbn -[register_range]; do 2 eexists; (split; [reflexivity|]);
    (split;
     [ unfold Close; cbn -[register_range free_range];
       unfold Uninstall; rewrite ?Hwd, ?Hrd;
       cbn -[register_range free_range]; reflexivity | ]);
    cbn -[register_range free_range]; do 4 (split; [reflexivity|]).
  all: assert (forall q, port_choice <= q < port_choice + 4 ->
                 bool_decide (port_choice <= q < port_choice + 1)
                 || bool_decide (port_choice + 1 <= q < port_choice + 1 + 1)
                 || bool_decide (port_choice + 2 <= q < port_choice + 2 + 1)
                 || bool_decide (port_choice + 3 <= q < port_choice + 3 + 1) = true)
         as Hfour
         by (intros q Hq; repeat case_bool_decide; try done; lia).
  all: split;
    [ intros q Hq;
      match goal with
      | |- ?t !! q = None /\ _ =>
          assert (t !! q = None) as Hnone
      end;
      [ rewrite ?lookup_free_range; specialize (Hfour q Hq);
        repeat case_bool_decide; try done; lia
      | split; [exact Hnone|]; unfold IO_WriteB;
        cbn -[register_range free_range]; by rewrite Hnone ]
    | ].
  all: split;
    [ intros Hgb; try (apply bool_decide_eq_false in Hcard; congruence);
      intros q Hq; rewrite ?lookup_free_range;
      split; repeat case_bool_decide; try done; lia
    | ].
  all: split; [|reflexivity].
  all: intros q Hq; rewrite ?lookup_free_range, ?lookup_register_range;
    rewrite ?bool_decide_eq_false_2 by lia; done.
Qed.

(** X11. Opening and closing again.  On a machine at rest (device not
    open, detection handler objects not installed), [Open] at a valid port
    followed by [Close] leaves the device closed, without chips, resamplers
    or channel; no handler is bound at the four chip ports and, for card
    gb, none at base+0 to base+15 in either table; the ports outside that
    range are bound as before [Open]; so a guest write to a chip port is
    now ignored, and a second [Close] changes nothing. *)
Theorem Open_then_Close_releases_ports
    (port_choice : Z) (card_choice filter_choice : string) m now (v : Z) :
  is_open (gameblaster m) = false ->
  installed (write_handler_for_detection (gameblaster m)) = false ->
  installed (read_handler_for_detection (gameblaster m)) = false ->
  port_choice ∈ valid_ports_for card_choice ->
  exists m1 m2,
    Open port_choice card_choice filter_choice m = Ok m1
    /\ Close m1 = Ok m2
    /\ is_open (gameblaster m2) = false
    /\ devices (gameblaster m2) = (None, None)
    /\ resamplers (gameblaster m2) = (None, None)
    /\ channel (gameblaster m2) = None
    /\ (forall q, port_choice <= q < port_choice + 4 ->
          io_write_handlers m2 !! q = None
          /\ IO_WriteB now q v m2 = Ok m2)
    /\ (card_choice = "gb" ->
          forall q, port_choice <= q < port_choice + 16 ->
            io_write_handlers m2 !! q = None /\ io_read_handlers m2 !! q = None)
    /\ (forall q, ~ (port_choice <= q < port_choice + 16) ->
          io_write_handlers m2 !! q = io_write_handlers m !! q
          /\ io_read_handlers m2 !! q = io_read_handlers m !! q)
    /\ Close m2 = Ok m2.
Proof.
  intros Hclosed Hwd Hrd Hport.
  destruct (Open_Close_at_rest port_choice card_choice filter_choice m now v
              Hclosed Hwd Hrd Hport)
    as (m1 & m2 & Hopen & Hclose & Hfacts).
  exists m1, m2. split; [exact Hopen|]. split; [exact Hclose|]. exact Hfacts.
Qed.


Lemma Open_after_Close (port_choice : Z) (card_choice filter_choice : string) m mc :
  Close m = Ok mc ->
  Open port_choice card_choice filter_choice m =
    Open port_choice card_choice filter_choice mc.
Proof.
  intros Hclose. unfold Open.
  by rewrite Hclose, (Close_not_open mc (Close_closed _ _ Hclose)).
Qed.

(** X12. Reopening at another place leaves no stale handlers.  On a
    machine at rest, [Open] at a first valid port followed by [Open] at a
    second one succeeds; the device then sits at the second base port with
    its four chip ports bound, and the ports of the first opening that lie
    outside base+0 to base+15 of the second are bound to nothing: the
    four chip ports in the write table and, when the first card was gb,
    all sixteen ports in both tables. *)
Theorem reopening_unbinds_the_old_ports
    (port1 port2 : Z) (card1 card2 filter1 filter2 : string) m :
  is_open (gameblaster m) = false ->
  installed (write_handler_for_detection (gameblaster m)) = false ->
  installed (read_handler_for_detection (gameblaster m)) = false ->
  port1 ∈ valid_ports_for card1 ->
  port2 ∈ valid_ports_for card2 ->
  exists m1 m2,
    Open port1 card1 filter1 m = Ok m1
    /\ Open port2 card2 filter2 m1 = Ok m2
    /\ base_port (gameblaster m2) = port2
    /\ (io_write_handlers m2 !! port2 = Some data_to_left
        /\ io_write_handlers m2 !! (port2 + 1) = Some control_to_left
        /\ io_write_handlers m2 !! (port2 + 2) = Some data_to_right
        /\ io_write_handlers m2 !! (port2 + 3) = Some control_to_right)
    /\ (forall q, port1 <= q < port1 + 4 -> ~ (port2 <= q < port2 + 16) ->
          io_write_handlers m2 !! q = None)
    /\ (card1 = "gb" ->
          forall q, port1 <= q < port1 + 16 -> ~ (port2 <= q < port2 + 16) ->
            io_write_handlers m2 !! q = None /\ io_read_handlers m2 !! q = None).
Proof.
  intros Hrest Hwd Hrd Hport1 Hport2.
  destruct (Open_Close_at_rest port1 card1 filter1 m 0 0 Hrest Hwd Hrd Hport1)
    as (m1 & mc & Hopen1 & Hclose & Hclosed & _ & _ & _ & Hfour & Hgb & _ & _).
  destruct (Open_tables_at_rest port2 card2 filter2 mc Hclosed Hport2)
    as (m2 & Hopen2 & Houtside & _).
  assert (closable mc) as Hmc.
  { intros Hopen. rewrite Hclosed in Hopen. discriminate. }
  destruct (Open_ok port2 card2 filter2 mc Hmc Hport2)
    as (m2' & ch & r & Hopen2' & _ & Hbase & _ & _ & _ & _ & Hbound & _).
  assert (m2' = m2) as -> by congruence.
  exists m1, m2. split; [done|]. split.
  { by rewrite (Open_after_Close _ _ _ _ _ Hclose). }
  split; [done|]. split; [done|]. split.
  - intros q Hq Hout. destruct (Houtside q Hout) as [-> _]. by apply Hfour.
  - intros Hcard q Hq Hout. destruct (Houtside q Hout) as [-> ->].
    by apply Hgb.
Qed.


(** ** What catch-up leaves alone *)

Lemma MaybeRenderFrame_frame (frame frame' : AudioFrame) (ready : bool) s s' :
  MaybeRenderFrame frame s = Ok (ready, frame', s') ->
  s' = set_resamplers (resamplers s')
         (set_last_rendered_ms (last_rendered_ms s')
            (set_devices (devices s') s)).
Proof.
  unfold MaybeRenderFrame.
  destruct (devices s) as [[d0|] [d1|]]; cbn; try done;
    destruct (sound_stream_update d0) as [d0' [l0 q0]]; cbn; try done.
  destruct (sound_stream_update d1) as [d1' [l1 q1]]; cbn.
  destruct (resamplers s) as [[r0|] [r1|]]; cbn; try done;
    destruct (input r0 _) as [l_ready r0']; cbn; try done.
  destruct (input r1 _) as [r_ready r1']; cbn.
  case_bool_decide; cbn; [|done].
  by intros [= _ _ <-].
Qed.

Lemma render_loop_frame (fuel : nat) now s s' :
  render_loop fuel now s = Ok s' ->
  s' = set_fifo (fifo s')
         (set_resamplers (resamplers s')
            (set_last_rendered_ms (last_rendered_ms s')
               (set_devices (devices s') s)))
  /\ exists new, fifo s' = fifo s ++ new.
Proof.
  revert s. induction fuel as [|fuel IH]; intros s; cbn [render_loop].
  - destruct (Qltb (last_rendered_ms s) now); [done|].
    intros [= <-]. split; [by destruct s|]. exists []. by rewrite app_nil_r.
  - destruct (Qltb (last_rendered_ms s) now); cycle 1.
    { intros [= <-]. split; [by destruct s|]. exists []. by rewrite app_nil_r. }
    destruct (MaybeRenderFrame _ _) as [[[ready f] s1]|e] eqn:Hframe; cbn; [|done].
    intros Hrun. destruct (IH _ Hrun) as [Heq [new Hnew]].
    pose proof (MaybeRenderFrame_frame _ _ _ _ _ Hframe) as Hs1.
    pose proof (MaybeRenderFrame_channel _ _ _ _ _ Hframe) as [_ Hf1].
    cbn in Hf1. split.
    + etrans; [exact Heq|]. destruct ready; rewrite Hs1; by destruct s.
    + rewrite Hnew. destruct ready; cbn; rewrite Hf1.
      * eexists. by rewrite <- app_assoc.
      * by eexists.
Qed.

(** X13. Catch-up only renders and queues.  Whenever [RenderUpToNow]
    returns, the device had a channel, and it differs from before at most
    in that channel being awake, in the chips, the resamplers, the render
    clock and the queue (the rest of the channel, base port, detection
    register, handler objects and open flag are as they were); the queue
    has only grown at its back; and the sink has received nothing. *)
Theorem RenderUpToNow_only_renders_and_queues now s s' :
  RenderUpToNow now s = Ok s' ->
  exists c,
    channel s = Some c
    /\ s' = set_fifo (fifo s')
              (set_resamplers (resamplers s')
                 (set_last_rendered_ms (last_rendered_ms s')
                    (set_devices (devices s')
                       (set_channel (Some (Enable true c)) s))))
    /\ (exists new, fifo s' = fifo s ++ new)
    /\ sink_frames s' = sink_frames s.
Proof.
  unfold RenderUpToNow. destruct (channel s) as [c|] eqn:Hc; cbn; [|done].
  assert ((WakeUp c).2 = Enable true c) as Hwake by reflexivity.
  destruct (WakeUp c) as [woke c'] eqn:HW. cbn in Hwake. subst c'.
  intros Hrun. exists c. split; [done|].
  destruct woke.
  - injection Hrun as <-. split; [by destruct s|]. split.
    + exists []. cbn. by rewrite app_nil_r.
    + unfold sink_frames. cbn. by rewrite Hc.
  - pose proof (render_loop_post _ _ _ _ Hrun) as [_ Hch].
    destruct (render_loop_frame _ _ _ _ Hrun) as [Heq Hnew].
    cbn in Hch, Hnew. split; [|split; [done|]].
    + etrans; [exact Heq|]. by destruct s.
    + unfold sink_frames. rewrite Hch, Hc. done.
Qed.

(** X14. On a machine whose device can be closed, [Open] returns a
    machine exactly when the port is in the list for the card: neither the
    filter setting nor the state the machine was in can make it fail, and
    no port outside the list is accepted. *)
Theorem Open_succeeds_iff_port_valid
    (port_choice : Z) (card_choice filter_choice : string) m :
  closable m ->
  (exists m', Open port_choice card_choice filter_choice m = Ok m')
  <-> port_choice ∈ valid_ports_for card_choice.
Proof.
  intros Hm. split.
  - intros [m' Hopen].
    destruct (decide (port_choice ∈ valid_ports_for card_choice)) as [|Hout]; [done|].
    exfalso. revert Hopen.
    destruct (Close_keeps m Hm) as (mc & Hclose & Hclosed & _).
    unfold Open. rewrite Hclose. cbn [mbind result_bind].
    rewrite Hclosed. cbn [negb assert].
    unfold check_cast_io_port, in_uint16.
    destruct (0 <=? port_choice) eqn:Hlo; [|done].
    destruct (port_choice <=? 65535) eqn:Hhi; [|done].
    apply Z.leb_le in Hlo, Hhi. cbn [andb assert mbind result_bind].
    rewrite Z.mod_small by lia.
    assert (contains (if bool_decide (card_choice = "gb")
                      then valid_gb_ports else valid_cms_ports) port_choice = false)
      as ->; [|done].
    unfold contains. by apply bool_decide_eq_false_2.
  - intros Hport.
    destruct (Open_ok port_choice card_choice filter_choice m Hm Hport)
      as (m' & _ & _ & Hopen & _).
    by exists m'.
Qed.


(** ** Register writes over the life of an open device *)

Lemma render_remainder_devices (n : nat) s s' :
  render_remainder n s = Ok s' ->
  (exists d0 d1, devices s = (Some d0, Some d1)) ->
  exists d0 d1, devices s' = (Some d0, Some d1).
Proof.
  revert s. induction n as [|n IH]; intros s; cbn [render_remainder].
  - by intros [= <-].
  - destruct (MaybeRenderFrame _ _) as [[[ready f] s1]|e] eqn:Hframe; cbn; [|done].
    apply MaybeRenderFrame_devices in Hframe.
    destruct ready.
    + destruct (channel s1) as [c1|]; cbn; [|done].
      intros Hrun _. by apply (IH _ Hrun).
    + cbn. intros Hrun _. by apply (IH _ Hrun).
Qed.

Lemma AudioCallback_devices now (N : nat) s s' :
  AudioCallback now N s = Ok s' ->
  (exists d0 d1, devices s = (Some d0, Some d1)) ->
  exists d0 d1, devices s' = (Some d0, Some d1).
Proof.
  unfold AudioCallback. destruct (channel s) as [c|]; cbn; [|done].
  destruct (drain_fifo N (fifo s) c) as [[n q] c'].
  destruct (render_remainder n _) as [s0|] eqn:Hrest; cbn; [|done].
  intros [= <-] Hchips. cbn. by apply (render_remainder_devices _ _ _ Hrest).
Qed.

(** No event changes the port tables, and none removes a chip. *)
Lemma guest_step_keeps (e : GuestEvent) m m' :
  guest_step e m = Ok m' ->
  io_write_handlers m' = io_write_handlers m
  /\ ((exists d0 d1, devices (gameblaster m) = (Some d0, Some d1)) ->
      exists d0 d1, devices (gameblaster m') = (Some d0, Some d1)).
Proof.
  destruct e as [now port value | now N | ]; cbn [guest_step].
  - unfold IO_WriteB.
    destruct (io_write_handlers m !! port) as [[| | | |]|];
      [ destruct (WriteDataToLeftDevice now value _) as [g|] eqn:Hw
      | destruct (WriteControlToLeftDevice now value _) as [g|] eqn:Hw
      | destruct (WriteDataToRightDevice now value _) as [g|] eqn:Hw
      | destruct (WriteControlToRightDevice now value _) as [g|] eqn:Hw
      | destruct (WriteToDetectionPort port value _) as [g|] eqn:Hw
      | ]; cbn; try done; intros [= <-]; (split; [done|]); cbn; try done.
    + intros Hchips.
      by destruct (write_handler_post now value _ g Hchips (or_introl Hw)) as (_ & _ & ?).
    + intros Hchips.
      by destruct (write_handler_post now value _ g Hchips
                     (or_intror (or_introl Hw))) as (_ & _ & ?).
    + intros Hchips.
      by destruct (write_handler_post now value _ g Hchips
                     (or_intror (or_intror (or_introl Hw)))) as (_ & _ & ?).
    + intros Hchips.
      by destruct (write_handler_post now value _ g Hchips
                     (or_intror (or_intror (or_intror Hw)))) as (_ & _ & ?).
    + revert Hw. unfold WriteToDetectionPort. destruct (_ || _).
      * destruct (check_cast_uint8 value) as [b|]; cbn; [|done]. by intros [= <-].
      * by intros [= <-].
  - destruct (AudioCallback now N _) as [g|] eqn:Hcall; cbn; [|done].
    intros [= <-]. split; [done|]. cbn. by apply (AudioCallback_devices _ _ _ _ Hcall).
  - intros [= <-]. done.
Qed.

Lemma guest_run_keeps (es : list GuestEvent) m m' :
  guest_run es m = Ok m' ->
  io_write_handlers m' = io_write_handlers m
  /\ ((exists d0 d1, devices (gameblaster m) = (Some d0, Some d1)) ->
      exists d0 d1, devices (gameblaster m') = (Some d0, Some d1)).
Proof.
  revert m. induction es as [|e es IH]; intros m; cbn [guest_run].
  - by intros [= <-].
  - destruct (guest_step e m) as [m1|] eqn:Hstep; cbn; [|done].
    intros Hrun. destruct (guest_step_keeps _ _ _ Hstep) as [Ht Hc].
    destruct (IH _ Hrun) as [Ht' Hc']. split; [congruence | auto].
Qed.

(** C3. Every write to the four chip ports catches up first.  Take a
    device just opened and let any run of events go by: guest writes to any
    ports at any times, mixer callbacks, the channel put to sleep.  In the
    machine so reached, a byte written to base+0, base+1, base+2 or base+3
    is [RenderUpToNow] on the device as it stands, followed by that byte
    going into the data or control register of the left or right chip of
    the device the catch-up returned; when the catch-up aborts so does the
    write, and when the write returns the render clock is not behind [now].
    For the first write after [Open], with a positive [ms_per_render] and
    resamplers that are in step when created alike, the write returns. *)
Theorem chip_port_writes_catch_up_first
    (port_choice : Z) (card_choice filter_choice : string) m now (v : Z) :
  closable m ->
  port_choice ∈ valid_ports_for card_choice ->
  0 <= v <= 255 ->
  exists m0,
    Open port_choice card_choice filter_choice m = Ok m0
    /\ (forall (es : list GuestEvent) m',
          guest_run es m0 = Ok m' ->
          IO_WriteB now port_choice v m' =
            (g ← RenderUpToNow now (gameblaster m');
             Ok (set_gameblaster (on_left (fun d => data_w d v) g) m'))
          /\ IO_WriteB now (port_choice + 1) v m' =
            (g ← RenderUpToNow now (gameblaster m');
             Ok (set_gameblaster (on_left (fun d => control_w d v) g) m'))
          /\ IO_WriteB now (port_choice + 2) v m' =
            (g ← RenderUpToNow now (gameblaster m');
             Ok (set_gameblaster (on_right (fun d => data_w d v) g) m'))
          /\ IO_WriteB now (port_choice + 3) v m' =
            (g ← RenderUpToNow now (gameblaster m');
             Ok (set_gameblaster (on_right (fun d => control_w d v) g) m'))
          /\ (forall off m'', off ∈ [0; 1; 2; 3] ->
                IO_WriteB now (port_choice + off) v m' = Ok m'' ->
                (now <= last_rendered_ms (gameblaster m''))%Q))
    /\ ((0 < ms_per_render)%Q ->
        (forall a b c : Q, readiness_agrees (create a b c) (create a b c)) ->
        forall off, off ∈ [0; 1; 2; 3] ->
          exists m'', IO_WriteB now (port_choice + off) v m0 = Ok m''
                      /\ (now <= last_rendered_ms (gameblaster m''))%Q).
Proof.
  intros Hm Hport Hv.
  destruct (Open_ok port_choice card_choice filter_choice m Hm Hport)
    as (m0 & ch & r & Hopen & _ & _ & Hdev & Hres & (a & b & c & Hr) & Hch
        & (Hw0 & Hw1 & Hw2 & Hw3) & _).
  assert (forall (es : list GuestEvent) (m' : Machine D R),
            guest_run es m0 = Ok m' ->
            IO_WriteB now port_choice v m' =
              (g ← RenderUpToNow now (gameblaster m');
               Ok (set_gameblaster (on_left (fun d => data_w d v) g) m'))
            /\ IO_WriteB now (port_choice + 1) v m' =
              (g ← RenderUpToNow now (gameblaster m');
               Ok (set_gameblaster (on_left (fun d => control_w d v) g) m'))
            /\ IO_WriteB now (port_choice + 2) v m' =
              (g ← RenderUpToNow now (gameblaster m');
               Ok (set_gameblaster (on_right (fun d => data_w d v) g) m'))
            /\ IO_WriteB now (port_choice + 3) v m' =
              (g ← RenderUpToNow now (gameblaster m');
               Ok (set_gameblaster (on_right (fun d => control_w d v) g) m')))
    as Hevery.
  { intros es m' Hrun.
    destruct (guest_run_keeps es m0 m' Hrun) as [Htables Hchips].
    specialize (Hchips ltac:(eauto)).
    destruct (write_handlers_catch_up_first now v (gameblaster m') Hchips Hv)
      as (Hdl & Hcl & Hdr & Hcr).
    unfold IO_WriteB. rewrite Htables, Hw0, Hw1, Hw2, Hw3, Hdl, Hcl, Hdr, Hcr.
    by destruct (RenderUpToNow now (gameblaster m')). }
  exists m0. split; [done|]. split.
  - intros es m' Hrun.
    destruct (Hevery es m' Hrun) as (H0' & H1' & H2' & H3').
    repeat (split; [done|]).
    intros off m'' Hoff.
    list_cases Hoff; subst off; rewrite ?Z.add_0_r;
      rewrite ?H0', ?H1', ?H2', ?H3';
      (destruct (RenderUpToNow now (gameblaster m')) as [g|] eqn:Hcatch;
       cbn; [|done]);
      intros [= <-]; cbn;
      (assert ((now <= last_rendered_ms g)%Q) as Hdone;
       [ revert Hcatch; unfold RenderUpToNow;
         (destruct (channel (gameblaster m')) as [c0|]; cbn; [|done]);
         destruct (WakeUp c0) as [[|] c'];
         [ intros [= <-]; cbn; apply Qle_refl
         | intros Hloop; by apply render_loop_post in Hloop as [? _] ]
       | exact Hdone ]).
  - intros Hq Hcreate off Hoff.
    destruct (Hevery [] m0 eq_refl) as (H0' & H1' & H2' & H3').
    destruct (RenderUpToNow_ok now (gameblaster m0) ch _ _ r r Hch Hdev Hres)
      as (g & k & Hrun & _ & _ & _ & Hcaught); [subst r; apply Hcreate | done |].
    list_cases Hoff; subst off; rewrite ?Z.add_0_r;
      rewrite ?H0', ?H1', ?H2', ?H3', Hrun; cbn; eexists; (split; [reflexivity|]);
      exact Hcaught.
Qed.

End Properties.

(** * The sample instance: reachability, evaluations and instances of the
      theorems *)

Section OnSample.

Import Sample.

Lemma decimator_feed_in_step (xs ys : list Z) (r0 r1 : decimator) :
  length xs = length ys ->
  period r0 = period r1 -> phase r0 = phase r1 ->
  period (feed r0 xs) = period (feed r1 ys)
  /\ phase (feed r0 xs) = phase (feed r1 ys).
Proof.
  revert ys r0 r1. induction xs as [|x xs IH]; intros [|y ys] r0 r1 Hlen Hp Hph;
    try discriminate; [done|].
  cbn [feed]. apply IH; [by injection Hlen | done | cbn; by rewrite Hp, Hph].
Qed.

Lemma decimator_in_step (r0 r1 : decimator) :
  period r0 = period r1 -> phase r0 = phase r1 -> readiness_agrees r0 r1.
Proof.
  intros Hp Hph xs ys x y Hlen.
  destruct (decimator_feed_in_step xs ys r0 r1 Hlen Hp Hph) as [Hp' Hph'].
  cbn. by rewrite Hp', Hph'.
Qed.

Lemma power_on_closable : closable power_on.
Proof. intros Hopen. discriminate. Qed.

(** The sample device is what opening a Game Blaster at 0x220 and one
    first register write at time 0 lead to. *)
Lemma awake_device_reachable :
  (m ← Open 0x220 "gb" "on" power_on;
   m ← IO_WriteB 0 0x220 0 m;
   Ok (gameblaster m)) = Ok awake_device.
Proof. vm_compute. reflexivity. Qed.

(** C1. One catch-up on the sample device, [now] being 0.002 ms after
    the render clock: a single sample is rendered from each chip, yet the
    clock gains two [ms_per_render], one in the loop of [RenderUpToNow]
    and one in [MaybeRenderFrame], and ends more than one [ms_per_render]
    past [now]. *)
Theorem RenderUpToNow_clock_gains_two_quanta_per_sample :
  exists s',
    RenderUpToNow (1 # 500) awake_device = Ok s'
    /\ devices s' =
         (Some (rendered 1 (device_start 7159090 32)),
          Some (rendered 1 (device_start 7159090 32)))
    /\ (last_rendered_ms s' == last_rendered_ms awake_device + 2 * ms_per_render)%Q
    /\ ((1 # 500) + ms_per_render < last_rendered_ms s')%Q.
Proof.
  apply (catch_up_overshoots (1 # 500) awake_device awake_channel
           (device_start 7159090 32) (device_start 7159090 32)
           (create 223722 48000 21600) (create 223722 48000 21600));
    [ reflexivity | reflexivity | reflexivity | reflexivity
    | by apply decimator_in_step
    | vm_compute; reflexivity | vm_compute; reflexivity | vm_compute; reflexivity ].
Qed.

(** C2 fails as stated.  Asked for 9 frames with an empty queue, the
    callback on the sample device hands the sink 2 frames: the renders that
    found the resamplers not ready were counted and delivered nothing. *)
Lemma AudioCallback_delivers_fewer_than_requested :
  fifo awake_device = []
  /\ delivered 0 9 awake_device = Ok 2%nat
  /\ ~ (forall N : nat, delivered 0 N awake_device = Ok N).
Proof.
  assert (delivered 0 9 awake_device = Ok 2%nat) as Hrun by (vm_compute; reflexivity).
  split; [reflexivity|]. split; [exact Hrun|].
  intros Hall. specialize (Hall 9%nat). congruence.
Qed.

Lemma AudioCallback_drains_then_renders_witness :
  readiness_agrees (create 223722 48000 21600 : decimator) (create 223722 48000 21600)
  /\ exists s',
       AudioCallback 0 8 queued_device = Ok s'
       /\ sink_frames s' = fifo queued_device ++ [{| left := 0; right := 0 |}]
       /\ fifo s' = []
       /\ delivered 0 8 queued_device = Ok 4%nat.
Proof.
  assert (readiness_agrees (create 223722 48000 21600 : decimator)
            (create 223722 48000 21600)) as Hag by (by apply decimator_in_step).
  split; [exact Hag|].
  destruct (AudioCallback_drains_then_renders 0 8 queued_device awake_channel
              (device_start 7159090 32) (device_start 7159090 32)
              (create 223722 48000 21600) (create 223722 48000 21600)
              eq_refl eq_refl eq_refl Hag)
    as (s' & Hrun & Hsink & Hfifo & _ & _ & _ & Hdelivered).
  exists s'. split; [exact Hrun|]. split; [exact Hsink|]. split; [exact Hfifo|].
  exact Hdelivered.
Defined.

Lemma RenderUpToNow_wake_skips_rendering_witness :
  (WakeUp (Enable false awake_channel)).1 = true
  /\ exists s',
       RenderUpToNow 5 asleep_device = Ok s'
       /\ last_rendered_ms s' = 5%Q
       /\ fifo s' = fifo asleep_device
       /\ devices s' = devices asleep_device.
Proof.
  split; [reflexivity|].
  destruct (RenderUpToNow_wake_skips_rendering 5 asleep_device
              (Enable false awake_channel) eq_refl eq_refl)
    as (s' & Hrun & Hclock & Hfifo & Hdev & _).
  exists s'. split; [exact Hrun|]. split; [exact Hclock|].
  split; [exact Hfifo | exact Hdev].
Defined.

Lemma RenderUpToNow_when_current_witness :
  (last_rendered_ms awake_device == 0)%Q
  /\ (WakeUp awake_channel).1 = false
  /\ RenderUpToNow 0 awake_device = Ok awake_device.
Proof.
  split; [reflexivity|]. split; [reflexivity|].
  apply (RenderUpToNow_when_current 0 awake_device awake_channel
           eq_refl eq_refl ltac:(reflexivity)).
Defined.

Lemma detection_protocol_witness :
  0 <= 0x55 <= 255
  /\ exists s',
       WriteToDetectionPort (0x220 + 0x6) 0x55 awake_device = Ok s'
       /\ cms_detect_register s' = 0x55
       /\ ReadFromDetectionPort (0x220 + 0xb) s' = 0x55.
Proof.
  split; [lia|].
  destruct (detection_protocol awake_device 0x55 ltac:(lia)) as (_ & Hloop & _).
  apply (Hloop 0x6 0xb).
  - apply elem_of_cons. by left.
  - apply elem_of_cons. right. apply elem_of_cons. by left.
Defined.

Lemma Open_falls_back_to_default_filter_witness :
  parse_bool_setting "banana" = None
  /\ (forall c, (TryParseAndSetCustomFilter "banana" c).1 = false)
  /\ exists m' ch,
       Open 0x220 "gb" "banana" power_on = Ok m'
       /\ channel (gameblaster m') = Some ch
       /\ ch_lowpass_order ch = 1
       /\ ch_lowpass_cutoff_hz ch = 6000
       /\ ch_lowpass_state ch = FilterOn
       /\ config m' !! ("sblaster", "cms_filter") = Some "on".
Proof.
  assert (0x220 ∈ valid_ports_for "gb") as Hport.
  { apply elem_of_cons. right. apply elem_of_cons. by left. }
  assert (parse_bool_setting "banana" = None) as Hparse by reflexivity.
  assert (forall c, (TryParseAndSetCustomFilter "banana" c).1 = false) as Hcustom
    by reflexivity.
  split; [exact Hparse|]. split; [exact Hcustom|].
  destruct (Open_falls_back_to_default_filter 0x220 "gb" "banana" power_on
              power_on_closable Hport Hparse Hcustom)
    as (m' & ch & Hopen & Hch & Ho & Hc & Hs & _ & Hcfg).
  exists m', ch. repeat split; assumption.
Defined.

Lemma Open_rejects_invalid_port_witness :
  (0x210 ∉ valid_ports_for "cms")
  /\ (0x210 ∈ valid_ports_for "gb")
  /\ Open 0x210 "cms" "on" power_on =
       Abort (AssertionFailed "contains(valid_ports, base_port)").
Proof.
  assert (0x210 ∉ valid_ports_for "cms") as Hport.
  { intros Hin. list_cases Hin; discriminate. }
  split; [exact Hport|]. split; [apply elem_of_cons; by left|].
  destruct (Open_rejects_invalid_port 0x210 "cms" "on" power_on Hport)
    as (_ & _ & _ & Hlist & _).
  apply Hlist; [exact power_on_closable | lia].
Defined.

Lemma detection_reads_cover_chip_ports_witness :
  0x220 ∈ valid_gb_ports
  /\ exists m',
       Open 0x220 "gb" "on" power_on = Ok m'
       /\ IO_ReadB (0x220 + 0) m' = Some 0xff
       /\ IO_ReadB (0x220 + 3) m' = Some 0xff.
Proof.
  assert (0x220 ∈ valid_gb_ports) as Hport.
  { apply elem_of_cons. right. apply elem_of_cons. by left. }
  split; [exact Hport|].
  destruct (detection_reads_cover_chip_ports 0x220 "on" power_on
              power_on_closable Hport)
    as (m' & Hopen & _ & Hread).
  exists m'. split; [exact Hopen|].
  split; apply Hread; lia.
Defined.

(** ** Instances of the further properties *)


Lemma port_220_valid_gb : 0x220 ∈ valid_ports_for "gb".
Proof. apply elem_of_cons. right. apply elem_of_cons. by left. Qed.

Lemma port_240_valid_cms : 0x240 ∈ valid_ports_for "cms".
Proof. apply elem_of_cons. right. apply elem_of_cons. by left. Qed.

Lemma RenderUpToNow_returns_caught_up_witness :
  exists s',
    RenderUpToNow (1 # 50) awake_device = Ok s'
    /\ ((1 # 50) <= last_rendered_ms s')%Q.
Proof.
  destruct (RenderUpToNow (1 # 50) awake_device) as [s'|f] eqn:Hrun;
    [|vm_compute in Hrun; discriminate].
  exists s'. split; [reflexivity|].
  exact (proj1 (RenderUpToNow_returns_caught_up (1 # 50) awake_device s' Hrun)).
Defined.

Lemma RenderUpToNow_idempotent_witness :
  exists s1,
    RenderUpToNow (1 # 500) awake_device = Ok s1
    /\ RenderUpToNow (1 # 500) s1 = Ok s1.
Proof.
  destruct (RenderUpToNow (1 # 500) awake_device) as [s1|f] eqn:Hrun;
    [|vm_compute in Hrun; discriminate].
  exists s1. split; [reflexivity|].
  exact (RenderUpToNow_idempotent (1 # 500) awake_device s1 Hrun).
Defined.


Lemma AudioCallback_served_from_queue_witness :
  (2 <= length (fifo queued_device))%nat
  /\ exists s',
       AudioCallback 0 2 queued_device = Ok s'
       /\ sink_frames s' = sink_frames queued_device ++ take 2 (fifo queued_device)
       /\ devices s' = devices queued_device.
Proof.
  assert (2 <= length (fifo queued_device))%nat as HN by (cbn; lia).
  split; [exact HN|].
  destruct (AudioCallback_served_from_queue 0 2 queued_device awake_channel
              eq_refl HN)
    as (s' & Hrun & Hsink & _ & Hdev & _).
  exists s'. split; [exact Hrun|]. split; [exact Hsink | exact Hdev].
Defined.


Lemma callback_leaves_nothing_to_catch_up_witness :
  exists s1 s2,
    AudioCallback 3 9 awake_device = Ok s1
    /\ RenderUpToNow 3 s1 = Ok s2
    /\ devices s2 = devices s1
    /\ fifo s2 = fifo s1.
Proof.
  destruct (AudioCallback 3 9 awake_device) as [s1|f] eqn:Hcall;
    [|vm_compute in Hcall; discriminate].
  destruct (callback_leaves_nothing_to_catch_up 3 9 awake_device s1 Hcall)
    as (s2 & Hrun & Hdev & _ & Hfifo & _).
  exists s1, s2. split; [reflexivity|]. split; [exact Hrun|].
  split; [exact Hdev | exact Hfifo].
Defined.

Lemma detection_round_trip_through_ports_witness :
  exists m' m'',
    Open 0x220 "gb" "on" power_on = Ok m'
    /\ IO_WriteB 0 (0x220 + 0x6) 0x55 m' = Ok m''
    /\ IO_ReadB (0x220 + 0xb) m'' = Some 0x55.
Proof.
  destruct (detection_round_trip_through_ports 0x220 "on" power_on 0 0x55 0x6 0xb
              power_on_closable port_220_valid_gb ltac:(lia)
              ltac:(apply elem_of_cons; by left)
              ltac:(apply elem_of_cons; right; apply elem_of_cons; by left))
    as (m' & m'' & Hopen & Hwrite & Hread & _).
  exists m', m''. split; [exact Hopen|]. split; [exact Hwrite | exact Hread].
Defined.



Lemma Open_binds_only_its_ports_witness :
  exists m',
    Open 0x240 "cms" "on" power_on = Ok m'
    /\ io_read_handlers m' !! 0x240 = io_read_handlers power_on !! 0x240.
Proof.
  destruct (Open_binds_only_its_ports 0x240 "cms" "on" power_on
              eq_refl port_240_valid_cms)
    as (m' & Hopen & _ & Hcms).
  exists m'. split; [exact Hopen|].
  destruct (Hcms ltac:(discriminate)) as [-> _]. reflexivity.
Defined.

Lemma Open_then_Close_releases_ports_witness :
  exists m1 m2,
    Open 0x220 "gb" "on" power_on = Ok m1
    /\ Close m1 = Ok m2
    /\ channel (gameblaster m2) = None
    /\ IO_WriteB 7 0x221 0x1c m2 = Ok m2.
Proof.
  destruct (Open_then_Close_releases_ports 0x220 "gb" "on" power_on 7 0x1c
              eq_refl eq_refl eq_refl port_220_valid_gb)
    as (m1 & m2 & Hopen & Hclose & _ & _ & _ & Hch & Hfour & _).
  exists m1, m2. split; [exact Hopen|]. split; [exact Hclose|].
  split; [exact Hch|]. apply (Hfour 0x221). lia.
Defined.

Lemma reopening_unbinds_the_old_ports_witness :
  exists m1 m2,
    Open 0x220 "gb" "on" power_on = Ok m1
    /\ Open 0x240 "cms" "on" m1 = Ok m2
    /\ io_read_handlers m2 !! 0x224 = None
    /\ io_write_handlers m2 !! 0x240 = Some data_to_left.
Proof.
  destruct (reopening_unbinds_the_old_ports 0x220 0x240 "gb" "cms" "on" "on"
              power_on eq_refl eq_refl eq_refl port_220_valid_gb port_240_valid_cms)
    as (m1 & m2 & Hopen1 & Hopen2 & _ & (Hbound & _) & _ & Hgb).
  exists m1, m2. split; [exact Hopen1|]. split; [exact Hopen2|].
  split; [|exact Hbound].
  apply (Hgb eq_refl 0x224); lia.
Defined.

Lemma RenderUpToNow_only_renders_and_queues_witness :
  exists s',
    RenderUpToNow (1 # 50) awake_device = Ok s'
    /\ channel s' = Some (Enable true awake_channel)
    /\ sink_frames s' = sink_frames awake_device
    /\ cms_detect_register s' = cms_detect_register awake_device.
Proof.
  destruct (RenderUpToNow (1 # 50) awake_device) as [s'|f] eqn:Hrun;
    [|vm_compute in Hrun; discriminate].
  destruct (RenderUpToNow_only_renders_and_queues (1 # 50) awake_device s' Hrun)
    as (c & Hc & Heq & _ & Hsink).
  injection Hc as <-.
  exists s'. split; [reflexivity|].
  split; [rewrite Heq; reflexivity|]. split; [exact Hsink|].
  rewrite Heq. reflexivity.
Defined.

Lemma Open_succeeds_iff_port_valid_witness :
  closable power_on
  /\ exists m', Open 0x220 "gb" "on" power_on = Ok m'.
Proof.
  split; [exact power_on_closable|].
  apply (Open_succeeds_iff_port_valid 0x220 "gb" "on" power_on power_on_closable).
  exact port_220_valid_gb.
Defined.

(** ** A device that is playing *)

(** The playing device is reached by opening a Game Blaster at 0x220,
    loading the four registers at time 0 and writing once more 0.02 ms
    later, which catches up with three renders. *)
Lemma playing_device_reachable :
  (m ← Open 0x220 "gb" "on" power_on;
   m ← guest_run [GuestWrite 0 0x220 5; GuestWrite 0 0x221 7;
                  GuestWrite 0 0x222 3; GuestWrite 0 0x223 2;
                  GuestWrite (1 # 50) 0x223 2] m;
   Ok (gameblaster m)) = Ok playing_device.
Proof. vm_compute. reflexivity. Qed.

(** On the playing device the chips put out (5, 7) and (3, 2): the
    resamplers are fed 8 and 9, both are ready, and the frame is (8, 9). *)
Lemma MaybeRenderFrame_sums_and_readiness_witness :
  (sound_stream_update {| last_data := 5; last_control := 7; renders := 3 |}).2 = (5, 7)
  /\ (sound_stream_update {| last_data := 3; last_control := 2; renders := 3 |}).2 = (3, 2)
  /\ exists s',
       MaybeRenderFrame zero_frame playing_device
         = Ok (true, {| left := 8; right := 9 |}, s')
       /\ resamplers s' = (Some {| period := 4; phase := 0; held := 8 |},
                           Some {| period := 4; phase := 0; held := 9 |}).
Proof.
  split; [reflexivity|]. split; [reflexivity|].
  destruct (MaybeRenderFrame_sums_and_readiness zero_frame playing_device
              {| last_data := 5; last_control := 7; renders := 3 |}
              {| last_data := 3; last_control := 2; renders := 3 |}
              {| period := 4; phase := 3; held := 8 |}
              {| period := 4; phase := 3; held := 9 |}
              eq_refl eq_refl)
    as (s' & Hrun & _ & Hres & _).
  exists s'. split; [exact Hrun | exact Hres].
Defined.

(** A write that has something to catch up on.  After [Open] and a first
    write of 5 to the left data port at time 0, a write of 9 to the same
    port 0.04 ms later is the catch-up followed by the byte: the catch-up
    renders five samples and queues the one frame they yield, which carries
    the old data 5, and only then does the left chip take the 9. *)
Lemma chip_port_writes_catch_up_first_witness :
  exists m0 m1 m2,
    Open 0x220 "gb" "on" power_on = Ok m0
    /\ guest_run [GuestWrite 0 0x220 5] m0 = Ok m1
    /\ IO_WriteB (1 # 25) 0x220 9 m1 =
         (g ← RenderUpToNow (1 # 25) (gameblaster m1);
          Ok (set_gameblaster (on_left (fun d => data_w d 9) g) m1))
    /\ IO_WriteB (1 # 25) 0x220 9 m1 = Ok m2
    /\ fifo (gameblaster m2) = [{| left := 5; right := 0 |}]
    /\ devices (gameblaster m2) =
         (Some {| last_data := 9; last_control := 0; renders := 5 |},
          Some {| last_data := 0; last_control := 0; renders := 5 |}).
Proof.
  destruct (chip_port_writes_catch_up_first 0x220 "gb" "on" power_on (1 # 25) 9
              power_on_closable port_220_valid_gb ltac:(lia))
    as (m0 & Hopen & Hevery & _).
  destruct (guest_run [GuestWrite 0 0x220 5] m0) as [m1|f] eqn:Hrun.
  2: { exfalso.
       assert ((m ← Open 0x220 "gb" "on" power_on;
                guest_run [GuestWrite 0 0x220 5] m) = Abort f) as Habs
         by (rewrite Hopen; exact Hrun).
       vm_compute in Habs. discriminate. }
  destruct (Hevery _ m1 Hrun) as (Heq & _).
  destruct (IO_WriteB (1 # 25) 0x220 9 m1) as [m2|f] eqn:Hwrite.
  2: { exfalso.
       assert ((m ← Open 0x220 "gb" "on" power_on;
                m ← guest_run [GuestWrite 0 0x220 5] m;
                IO_WriteB (1 # 25) 0x220 9 m) = Abort f) as Habs
         by (rewrite Hopen; cbn [mbind result_bind]; rewrite Hrun; exact Hwrite).
       vm_compute in Habs. discriminate. }
  assert ((m ← Open 0x220 "gb" "on" power_on;
           m ← guest_run [GuestWrite 0 0x220 5] m;
           m ← IO_WriteB (1 # 25) 0x220 9 m;
           Ok (fifo (gameblaster m), devices (gameblaster m)))
          = Ok (fifo (gameblaster m2), devices (gameblaster m2))) as Hend.
  { rewrite Hopen. cbn [mbind result_bind]. rewrite Hrun. cbn [mbind result_bind].
    rewrite Hwrite. reflexivity. }
  vm_compute in Hend. injection Hend as Hfifo Hdev.
  exists m0, m1, m2. split; [exact Hopen|]. split; [exact Hrun|].
  split; [rewrite Hwrite; exact Heq|]. split; [exact Hwrite|].
  split; [symmetry; exact Hfifo | symmetry; exact Hdev].
Defined.

End OnSample.
